(** * d7.py: a batch driver around the 7-Zip command line

    A shallow embedding of [d7.py] (version 1.0.4) and the properties of
    its batch orchestration: path expansion ([get_file_list]), output
    directory allocation ([create_dir]), command construction
    ([seven_zip]), exit-code classification ([getSeverity] and the
    [return_code_table] of [main]) and the statistics kept by [main].

    The script talks to three things it does not own: the file system
    (through [os] and [os.path]), the logger, and the 7-Zip child process.
    They are modelled as an explicit [world] threaded through a small
    state-and-exception monad.  Paths follow [posixpath]. *)

From Stdlib Require Import Ascii String ZArith Lia.
From stdpp Require Import gmap strings list fin_maps pretty.

Open Scope Z_scope.

(** ** Python strings *)

Module Str.

(** [s[:n]] for [0 <= n]. *)
Fixpoint take (n : nat) (s : string) : string :=
  match n, s with
  | S n', String a s' => String a (take n' s')
  | _, _ => ""
  end.

(** [s[n:]] for [0 <= n]. *)
Fixpoint drop (n : nat) (s : string) : string :=
  match n, s with
  | S n', String _ s' => drop n' s'
  | _, _ => s
  end.

(** The scan behind [rfind]: [i] is the index of the head of [s] in the
    whole string, [found] the last index seen so far. *)
Fixpoint rfind_from (c : ascii) (s : string) (i : Z) (found : Z) : Z :=
  match s with
  | "" => found
  | String a s' =>
      rfind_from c s' (i + 1) (if Ascii.eqb a c then i else found)
  end.

(** [s.rfind(c)]: the highest index of [c] in [s], or [-1]. *)
Definition rfind (c : ascii) (s : string) : Z := rfind_from c s 0 (-1).

(** [c in s] for a one-character [c]. *)
Fixpoint mem (c : ascii) (s : string) : bool :=
  match s with
  | "" => false
  | String a s' => Ascii.eqb a c || mem c s'
  end.

(** [s.startswith(p)]. *)
Definition startswith (p s : string) : bool := String.prefix p s.

(** [s.endswith(c)] for a one-character [c]. *)
Fixpoint endswith (c : ascii) (s : string) : bool :=
  match s with
  | "" => false
  | String a "" => Ascii.eqb a c
  | String _ s' => endswith c s'
  end.

(** [s.rstrip(c)] for a one-character [c]. *)
Fixpoint rstrip (c : ascii) (s : string) : string :=
  match s with
  | "" => ""
  | String a s' =>
      match rstrip c s' with
      | "" => if Ascii.eqb a c then "" else String a ""
      | r => String a r
      end
  end.

(** [s == c * len(s)]: every character of [s] is [c]. *)
Fixpoint all_eq (c : ascii) (s : string) : bool :=
  match s with
  | "" => true
  | String a s' => Ascii.eqb a c && all_eq c s'
  end.

(** [bool(s)]: a string is truthy when it is not empty. *)
Definition truthy (s : string) : bool :=
  match s with "" => false | _ => true end.

(** [c * n]. *)
Fixpoint replicate (n : nat) (c : ascii) : string :=
  match n with
  | O => ""
  | S n' => String c (replicate n' c)
  end.

(** The format specifications the log lines use: [{s:<w}], [{s:^w}]
    and, for a non-negative integer already rendered as [s], [{s:0w}]. *)
Definition ljust (w : nat) (s : string) : string :=
  s +:+ replicate (w - String.length s) " ".

Definition center (w : nat) (s : string) : string :=
  let pad := (w - String.length s)%nat in
  let l := (pad / 2)%nat in
  replicate l " " +:+ s +:+ replicate (pad - l) " ".

Definition zfill (w : nat) (s : string) : string :=
  replicate (w - String.length s) "0" +:+ s.

(** [s.lower()] on ASCII letters. *)
Definition lower_ascii (a : ascii) : ascii :=
  let n := nat_of_ascii a in
  if ((65 <=? n) && (n <=? 90))%nat then ascii_of_nat (n + 32) else a.

Fixpoint lower (s : string) : string :=
  match s with
  | "" => ""
  | String a s' => String (lower_ascii a) (lower s')
  end.

End Str.

(** ** [posixpath] *)

Module posixpath.

Definition sep : ascii := "/"%char.
Definition extsep : ascii := "."%char.

(** [i = p.rfind(sep) + 1; head, tail = p[:i], p[i:]] and then
    [if head and head != sep*len(head): head = head.rstrip(sep)]. *)
Definition split (p : string) : string * string :=
  let i := Z.to_nat (Str.rfind sep p + 1) in
  let head := Str.take i p in
  let tail := Str.drop i p in
  let head :=
    if Str.truthy head && negb (Str.all_eq sep head)
    then Str.rstrip sep head else head in
  (head, tail).

Definition basename (p : string) : string :=
  Str.drop (Z.to_nat (Str.rfind sep p + 1)) p.

Definition dirname (p : string) : string := fst (split p).

(** The loop of [genericpath._splitext] that skips leading dots:
    [k] counts the positions left between [filenameIndex] and
    [dotIndex]. *)
Fixpoint has_name_before_dot (k : nat) (s : string) : bool :=
  match k, s with
  | S k', String a s' =>
      if Ascii.eqb a extsep then has_name_before_dot k' s' else true
  | _, _ => false
  end.

(** [genericpath._splitext(p, sep, None, extsep)]. *)
Definition splitext (p : string) : string * string :=
  let sepIndex := Str.rfind sep p in
  let dotIndex := Str.rfind extsep p in
  if (sepIndex <? dotIndex) &&
     has_name_before_dot (Z.to_nat (dotIndex - (sepIndex + 1)))
                         (Str.drop (Z.to_nat (sepIndex + 1)) p)
  then (Str.take (Z.to_nat dotIndex) p, Str.drop (Z.to_nat dotIndex) p)
  else (p, "").

(** [join(a, b)] with one component. *)
Definition join (a b : string) : string :=
  if Str.startswith "/" b then b
  else if negb (Str.truthy a) || Str.endswith sep a then a +:+ b
  else a +:+ "/" +:+ b.

End posixpath.

(** ** The world outside the script *)

(** What lies at a path.  Besides the two kinds the script asks about
    ([os.path.isfile], [os.path.isdir]) a name can be taken by something
    that exists and is neither, a FIFO, a socket or a device
    ([Special]), and by a symbolic link whose target is missing
    ([Dangling]): [os.path.exists], [isfile] and [isdir] do not see it,
    yet [os.mkdir] finds the name taken.  A symbolic link that leads to
    a file or to a directory counts as what it leads to. *)
Inductive kind : Set := File | Dir | Special | Dangling.

Global Instance kind_eq_dec : EqDecision kind.
Proof. solve_decision. Defined.

(** The errors of the operating system the script meets, by the
    exception Python raises for them: [EACCES] and [EPERM] give
    [PermissionError], [ENOENT] [FileNotFoundError], [ENOTDIR]
    [NotADirectoryError], [EEXIST] [FileExistsError], and every other
    one ([ENAMETOOLONG], [EROFS], [ENOSPC], [ENOEXEC], ...) a plain
    [OSError]. *)
Inductive errno : Set := EACCES | ENOENT | ENOTDIR | EEXIST | EOTHER.

Global Instance errno_eq_dec : EqDecision errno.
Proof. solve_decision. Defined.

(** A file system: the kind of every taken path, keyed by its absolute
    normalised name (the form [os.path.abspath] returns); for each
    directory the names [os.scandir] yields, in the order it yields
    them; and the paths at which the operating system refuses to make a
    directory for a reason the tree does not show (the permissions of
    the parent, a name that is too long, a read-only or full device),
    with the error it answers. *)
Record filesystem : Type := Filesystem {
  stat : gmap string kind;
  listing : gmap string (list string);
  refused : gmap string errno
}.

(** [subprocess.CompletedProcess]. *)
Record CompletedProcess : Type := Completed {
  proc_args : list string;
  returncode : Z;
  stdout : string;
  stderr : string
}.

(** A record that reached the handler of the logger. *)
Record LogRecord : Type := Record_ {
  levelno : Z;
  message : string
}.

(** The state the script runs against: the file system, what has been
    logged so far, and the child processes that have run, oldest first. *)
Record world : Type := World {
  fs : filesystem;
  log : list LogRecord;
  children : list CompletedProcess
}.

Definition isfile (f : filesystem) (p : string) : bool :=
  bool_decide (stat f !! p = Some File).

Definition isdir (f : filesystem) (p : string) : bool :=
  bool_decide (stat f !! p = Some Dir).

(** [os.path.exists] follows symbolic links: it is false for one whose
    target is missing. *)
Definition exists_ (f : filesystem) (p : string) : bool :=
  match stat f !! p with
  | Some (File | Dir | Special) => true
  | Some Dangling | None => false
  end.

(** ** Control: return, raise, exit *)

Inductive exception : Set :=
  | KeyError
  | IndexError
  | FileExistsError
  | FileNotFoundError
  | NotADirectoryError
  | PermissionError
  | OSError
  | RecursionError.

Global Instance exception_eq_dec : EqDecision exception.
Proof. solve_decision. Defined.

(** How a call ends: it returns a value, raises, leaves through
    [sys.exit(status)] (the operating system reports [status] modulo 256),
    or never ends. *)
Inductive result (A : Type) : Type :=
  | Returned (a : A)
  | Raised (e : exception)
  | Exited (status : Z)
  | Diverged.

Arguments Returned {A} a.
Arguments Raised {A} e.
Arguments Exited {A} status.
Arguments Diverged {A}.

Definition M (A : Type) : Type := world -> result A * world.

Global Instance M_ret : MRet M := fun A a w => (Returned a, w).

Global Instance M_bind : MBind M := fun A B f m w =>
  match m w with
  | (Returned a, w') => f a w'
  | (Raised e, w') => (Raised e, w')
  | (Exited n, w') => (Exited n, w')
  | (Diverged, w') => (Diverged, w')
  end.

(** The subclass of [OSError] Python raises for an error of the
    operating system. *)
Definition OSError_of (e : errno) : exception :=
  match e with
  | EACCES => PermissionError
  | ENOENT => FileNotFoundError
  | ENOTDIR => NotADirectoryError
  | EEXIST => FileExistsError
  | EOTHER => OSError
  end.

Definition raise {A} (e : exception) : M A := fun w => (Raised e, w).
Definition sys_exit {A} (status : Z) : M A := fun w => (Exited status, w).
Definition diverge {A} : M A := fun w => (Diverged, w).

(** [try: m except e: pass]. *)
Definition try_pass (e : exception) (m : M unit) : M unit := fun w =>
  match m w with
  | (Raised e', w') => if decide (e' = e) then (Returned tt, w') else (Raised e', w')
  | r => r
  end.

Definition get_fs : M filesystem := fun w => (Returned (fs w), w).

Definition put_fs (f : filesystem) : M unit := fun w =>
  (Returned tt, {| fs := f; log := log w; children := children w |}).

(** [for x in xs: acc = body(x, acc)]. *)
Fixpoint for_each {A S : Type} (xs : list A) (body : A -> S -> M S) (acc : S)
  : M S :=
  match xs with
  | [] => mret acc
  | x :: xs' => acc' ← body x acc; for_each xs' body acc'
  end.

(** [d[k]] on a dict. *)
Definition getitem `{Countable K} {V} (d : gmap K V) (k : K) : M V :=
  match d !! k with
  | Some v => mret v
  | None => raise KeyError
  end.

(** [l[i]] on a list, [0 <= i]. *)
Definition list_getitem {A} (l : list A) (i : nat) : M A :=
  match l !! i with
  | Some v => mret v
  | None => raise IndexError
  end.

(** ** [logging] *)

Module logging.
Definition DEBUG : Z := 10.
Definition INFO : Z := 20.
Definition WARNING : Z := 30.
Definition ERROR : Z := 40.
End logging.

(** [logger.log(level, msg)] on the module's logger, whose level is set
    to [logging.INFO] and whose one handler keeps what it is given. *)
Definition logger_log (level : Z) (msg : string) : M unit := fun w =>
  if logging.INFO <=? level
  then (Returned tt,
        {| fs := fs w;
           log := log w ++ [ {| levelno := level; message := msg |} ];
           children := children w |})
  else (Returned tt, w).

Definition logger_debug : string -> M unit := logger_log logging.DEBUG.
Definition logger_info : string -> M unit := logger_log logging.INFO.
Definition logger_error : string -> M unit := logger_log logging.ERROR.

(** [f"[{tag:<9}] "], the label every log line of the script starts with. *)
Definition tag (t : string) : string := "[" +:+ Str.ljust 9 t +:+ "] ".

(** ** [os] *)

Definition os_path_isfile (p : string) : M bool :=
  f ← get_fs; mret (isfile f p).

Definition os_path_isdir (p : string) : M bool :=
  f ← get_fs; mret (isdir f p).

Definition os_path_exists (p : string) : M bool :=
  f ← get_fs; mret (exists_ f p).

(** [os.scandir(path)]: the names of the entries of a directory.  A
    directory is taken to be readable. *)
Definition os_scandir (path : string) : M (list string) :=
  f ← get_fs;
  match stat f !! path with
  | Some Dir => mret (default [] (listing f !! path))
  | Some (File | Special) => raise NotADirectoryError
  | Some Dangling | None => raise FileNotFoundError
  end.

(** [os.mkdir(name)]: the operating system may refuse; otherwise [name]
    must be free and its parent a directory. *)
Definition os_mkdir (name : string) : M unit :=
  f ← get_fs;
  let '(head, tail) := posixpath.split name in
  match refused f !! name with
  | Some e => raise (OSError_of e)
  | None =>
      match stat f !! name, stat f !! head with
      | Some _, _ => raise FileExistsError
      | None, Some Dir =>
          put_fs {| stat := <[name := Dir]> (stat f);
                    listing := <[name := []]>
                      (<[head := default [] (listing f !! head) ++ [tail]]>
                         (listing f));
                    refused := refused f |}
      | None, Some (File | Special) => raise NotADirectoryError
      | None, (Some Dangling | None) => raise FileNotFoundError
      end
  end.

(** The number of nested calls after which [os.makedirs] and
    [search_sub_dir] are cut with [RecursionError]:
    [sys.getrecursionlimit()].  The interpreter counts every frame on
    its stack, those of the callers too, so the script gives up some
    levels before this bound is reached. *)
Definition recursion_limit : nat := 1000.

(** [os.makedirs(name)] with [exist_ok=False], for a normalised [name]
    (no [.] component):
<<
    head, tail = path.split(name)
    if not tail: head, tail = path.split(head)
    if head and tail and not path.exists(head):
        try: makedirs(head)
        except FileExistsError: pass
    mkdir(name)
>> *)
Fixpoint makedirs_at (depth : nat) (name : string) : M unit :=
  let '(head, tail) := posixpath.split name in
  let '(head, tail) :=
    if Str.truthy tail then (head, tail) else posixpath.split head in
  head_exists ← os_path_exists head;
  (if Str.truthy head && Str.truthy tail && negb head_exists
   then match depth with
        | O => raise RecursionError
        | S depth' => try_pass FileExistsError (makedirs_at depth' head)
        end
   else mret tt);;
  os_mkdir name.

Definition os_makedirs : string -> M unit := makedirs_at recursion_limit.

(** ** The script *)

(** [argparse.Namespace] as [parser.parse_args()] returns it: [input]
    holds at least one path ([required=True], [action="append"]) and
    [exe] already carries its default when [--exe] was not given. *)
Record Namespace : Type := Args {
  codepage : option Z;
  input : list string;
  output : option string;
  password : option string;
  exe : string
}.

(** [str(x)] for an optional string and an optional integer. *)
Definition str_of (x : option string) : string := default "None" x.
Definition str_of_int (x : option Z) : string := default "None" (pretty <$> x).

(** [bool(x)] for an optional string. *)
Definition truthy (x : option string) : bool :=
  match x with Some s => Str.truthy s | None => false end.

(** [f"{n:05}"] and [f"{n:^5}"] for an integer. *)
Definition fmt_05 (n : Z) : string :=
  if n <? 0 then "-" +:+ Str.zfill 4 (pretty (- n)) else Str.zfill 5 (pretty n).
Definition fmt_center5 (n : Z) : string := Str.center 5 (pretty n).

(** The text of a list of strings in a debug line.  Python's quoting of
    special characters is not reproduced; the logger drops the record. *)
Definition str_of_list (l : list string) : string :=
  "[" +:+ String.concat ", " (map (fun s => "'" +:+ s +:+ "'") l) +:+ "]".

(** [f"({i})"]. *)
Definition suffix (i : nat) : string := "(" +:+ pretty i +:+ ")".

(** [dict.fromkeys(keys, v)]. *)
Definition dict_fromkeys (keys : list string) (v : Z) : gmap string Z :=
  foldl (fun d k => <[k := v]> d) ∅ keys.

(** The table of 7-Zip exit codes built in [main]. *)
Definition return_code_table : gmap Z string :=
  list_to_map
    [ (0, "No error");
      (1, "Warning");
      (2, "Fatal error");
      (7, "Command line error");
      (8, "Not enough memory for operation");
      (255, "User stopped the process") ].

(** The names [check_argument] accepts for the executable. *)
Definition main_executables : list string := ["7z"; "7za"; "7zz"; "7zzs"; "7zr"].

Definition getSeverity (level : Z) : Z :=
  if level =? 0 then logging.INFO
  else if (level =? 1) || (level =? 255) then logging.WARNING
  else logging.ERROR.

(** The command line [seven_zip] builds before it runs it. *)
Definition seven_zip_cmd (exe_path file_path : string)
    (out_dir password : option string) (code_page : option Z) : list string :=
  let '(name, ext) := posixpath.splitext (posixpath.basename file_path) in
  let cmd := [exe_path] in
  let cmd := cmd ++ ["x"] in
  let cmd := cmd ++ ["-y"] in
  let cmd := cmd ++ ["-aoa"] in
  let cmd := cmd ++ ["-o" +:+ str_of out_dir] in
  let cmd :=
    if bool_decide (ext ∈ [".zip"; ".7z"; ".rar"; ""])
       && bool_decide (password ≠ None)
    then cmd ++ ["-p" +:+ str_of password] else cmd in
  let cmd :=
    if bool_decide (ext ∈ [".zip"; ".tar"]) && bool_decide (code_page ≠ None)
    then cmd ++ ["-mcp=" +:+ str_of_int code_page] else cmd in
  cmd ++ [file_path].

(** What starting a child process comes to: the child ends, with an
    exit code (negative when a signal killed it), what it wrote to its
    two streams and the file system as it leaves it; the operating
    system does not start it (the executable is gone, may not be
    executed, is no program); or the child never ends. *)
Inductive started : Type :=
  | Ended (rc : Z) (out err : string) (f' : filesystem)
  | NotStarted (e : errno)
  | Hung.

(** What [parser.parse_args()] makes of the command line: the
    [Namespace], or the end of the process, with status 2 after a usage
    error (an unknown option, no [-i], a [-c] that is no integer) and
    with status 0 after [-h] or [-v].  [argparse] writes its message
    itself, not through the logger. *)
Inductive command_line : Type :=
  | Parsed (args : Namespace)
  | Usage
  | Information.

Section Script.

(** [os.path.abspath] for the working directory of the run. *)
Variable abspath : string -> string.

(** [__file__]. *)
Variable script_file : string.

(** The child process: what running a command line on a file system
    comes to. *)
Variable spawn : list string -> filesystem -> started.

(** [subprocess.run(cmd, stdout=PIPE, stderr=PIPE)]: it returns when
    the child has ended, raises when the child cannot be started, and
    waits as long as the child runs (no [timeout] is given). *)
Definition subprocess_run (cmd : list string) : M CompletedProcess := fun w =>
  match spawn cmd (fs w) with
  | Ended rc out err f' =>
      let rtn :=
        {| proc_args := cmd; returncode := rc; stdout := out; stderr := err |} in
      (Returned rtn,
       {| fs := f'; log := log w; children := children w ++ [rtn] |})
  | NotStarted e => (Raised (OSError_of e), w)
  | Hung => (Diverged, w)
  end.

(** [check_argument], after [parser.parse_args()].  The operating system
    resolves [args.exe] against the working directory, as [abspath]
    does. *)
Definition check_argument (args : Namespace) : M Namespace :=
  is_file ← os_path_isfile (abspath (exe args));
  (if negb is_file
   then logger_error ("The 7-Zip executable file (" +:+ exe args
                      +:+ ") does not exist.");;
        sys_exit (-2)
   else mret tt);;
  let '(name, ext) := posixpath.splitext (posixpath.basename (exe args)) in
  (if negb (bool_decide (name ∈ main_executables))
   then logger_error ("Invalid 7-Zip executable file name (" +:+ name +:+ ").");;
        sys_exit (-2)
   else mret tt);;
  mret args.

(** The closure [search_sub_dir] of [get_file_list]; [files] is the list
    it extends.  An entry is the name [os.scandir] yields; its [path] is
    [os.path.join(path, name)] and [is_file()], [is_dir()] look that
    path up. *)
Fixpoint search_sub_dir (depth : nat) (recursive : bool) (path : string)
    (files : list string) : M (list string) :=
  match depth with
  | O => raise RecursionError
  | S depth' =>
      it ← os_scandir path;
      for_each it (fun entry_name files =>
        let entry_path := posixpath.join path entry_name in
        is_file ← os_path_isfile entry_path;
        is_dir ← os_path_isdir entry_path;
        if negb (Str.startswith "." entry_name) && is_file
        then mret (files ++ [entry_path])
        else if negb (Str.startswith "." entry_name) && is_dir
        then (if recursive
              then search_sub_dir depth' recursive entry_path files
              else mret files)
        else mret files) files
  end.

(** The [for path in path_list] loop of [get_file_list]; the result is
    [None] when the loop left through [files = None; break]. *)
Fixpoint get_file_list_loop (recursive : bool) (path_list : list string)
    (files : list string) : M (option (list string)) :=
  match path_list with
  | [] => mret (Some files)
  | path :: path_list' =>
      let absolute_path := abspath path in
      is_file ← os_path_isfile absolute_path;
      if (is_file : bool)
      then get_file_list_loop recursive path_list' (files ++ [absolute_path])
      else
        is_dir ← os_path_isdir absolute_path;
        if (is_dir : bool)
        then files' ← search_sub_dir recursion_limit recursive absolute_path files;
             get_file_list_loop recursive path_list' files'
        else mret None
  end.

Definition get_file_list (path_list : list string) (recursive : bool)
  : M (list string) :=
  files ← get_file_list_loop recursive path_list [];
  match files with
  | None => logger_error "Invalid input file path.";; sys_exit (-2)
  | Some files =>
      if (length files <=? 0)%nat
      then logger_error "File does not exist.";; sys_exit (-2)
      else mret files
  end.

(** [for i in itertools.count(i): if not isfile(p + f"({i})"): ... break],
    cut after [fuel] rounds. *)
Fixpoint first_free_suffix (fuel : nat) (abs_dir_path : string) (i : nat)
  : M string :=
  match fuel with
  | O => diverge
  | S fuel' =>
      is_file ← os_path_isfile (abs_dir_path +:+ suffix i);
      if negb is_file
      then mret (abs_dir_path +:+ suffix i)
      else first_free_suffix fuel' abs_dir_path (S i)
  end.

(** [create_dir].  The search for a free suffix is given one round more
    than there are paths in the file system, which is enough for it to
    end ([first_free_suffix_returns] below). *)
Definition create_dir (dir_path : option string) : M (option string) :=
  abs_dir_path ←
    (if truthy dir_path
     then
       let abs_dir_path := abspath (str_of dir_path) in
       is_file ← os_path_isfile abs_dir_path;
       abs_dir_path ←
         (if (is_file : bool)
          then f ← get_fs;
               first_free_suffix (S (size (stat f))) abs_dir_path 1
          else mret abs_dir_path);
       is_dir ← os_path_isdir abs_dir_path;
       (if negb is_dir then os_makedirs abs_dir_path else mret tt);;
       mret (Some abs_dir_path)
     else mret None);
  logger_debug (tag "CREATEDIR" +:+ str_of abs_dir_path);;
  mret abs_dir_path.

Definition seven_zip (exe_path file_path : string)
    (out_dir password : option string) (code_page : option Z)
  : M CompletedProcess :=
  subprocess_run (seven_zip_cmd exe_path file_path out_dir password code_page).

(** The body of the [for i in range(0, statistics["total"])] loop of
    [main]. *)
Definition main_step (args : Namespace) (exe_path : string)
    (files : list string) (work_dir : option string)
    (i : nat) (statistics : gmap string Z) : M (gmap string Z) :=
  total ← getitem statistics "total";
  logger_info (tag "IDX/TOTAL" +:+ fmt_05 (Z.of_nat i + 1) +:+ "/"
               +:+ fmt_05 total);;
  file ← list_getitem files i;
  let '(name, ext) := posixpath.splitext (posixpath.basename file) in
  let base_dir_path :=
    if truthy work_dir then str_of work_dir else posixpath.dirname file in
  separate_dir ← create_dir (Some (posixpath.join base_dir_path name));
  rtn ← seven_zip exe_path file separate_dir (password args) (codepage args);
  statistics ←
    (if negb (returncode rtn =? 0)
     then failure ← getitem statistics "failure";
          mret (<["failure" := failure + 1]> statistics)
     else mret statistics);
  logger_debug (tag "CMD" +:+ str_of_list (proc_args rtn));;
  logger_info (tag "IN_FILE" +:+ file);;
  logger_info (tag "OUT_DIR" +:+ str_of separate_dir);;
  description ← getitem return_code_table (returncode rtn);
  logger_log (getSeverity (returncode rtn))
    (tag "CMDSTATUS" +:+ pretty (returncode rtn) +:+ "," +:+ description);;
  mret statistics.

(** [main] from the creation of [statistics] to the end of its loop;
    the value is [statistics] as the loop leaves it. *)
Definition main_statistics (args : Namespace) (exe_path : string)
    (files : list string) (work_dir : option string) : M (gmap string Z) :=
  let statistics := dict_fromkeys ["total"; "failure"] 0 in
  let statistics := <["total" := Z.of_nat (length files)]> statistics in
  logger_info (tag "START" +:+ script_file);;
  total ← getitem statistics "total";
  for_each (seq 0 (Z.to_nat total))
           (main_step args exe_path files work_dir) statistics.

(** [main] once [parser.parse_args()], the first thing
    [check_argument] does, has returned [argv]. *)
Definition main (argv : Namespace) : M Z :=
  args ← check_argument argv;
  let exe_path := abspath (exe args) in
  files ← get_file_list (input args) false;
  work_dir ← create_dir (output args);
  statistics ← main_statistics args exe_path files work_dir;
  total ← getitem statistics "total";
  failure ← getitem statistics "failure";
  logger_info (tag "RESULT" +:+ "TOTAL:" +:+ fmt_center5 total
               +:+ ",SUCCESS:" +:+ fmt_center5 (total - failure)
               +:+ ",FAILURE:" +:+ fmt_center5 failure);;
  logger_info (tag "END" +:+ script_file);;
  mret 0.

(** The exit status of the interpreter running
    [if __name__ == "__main__": main()]: the value [main] returns is
    dropped, [sys.exit(n)] ends the process with [n], an exception
    nobody catches ends it with 1.  A run that never ends has no
    status. *)
Definition exit_status (argv : Namespace) (w : world) : option Z :=
  match fst (main argv w) with
  | Returned _ => Some 0
  | Exited n => Some n
  | Raised _ => Some 1
  | Diverged => None
  end.

(** [parser.parse_args()] in [check_argument]. *)
Definition parse_args (c : command_line) : M Namespace :=
  match c with
  | Parsed args => mret args
  | Usage => sys_exit 2
  | Information => sys_exit 0
  end.

(** [main()] from the call of [parse_args] on: the lines before it (the
    handler of the logger, the default path of the executable) log
    nothing, create nothing and start no child. *)
Definition script (c : command_line) : M Z :=
  argv ← parse_args c; main argv.


End Script.

(** ** Notions the properties are stated with *)

(** What [main] derives from an exit code in one round of its loop: the
    level ([getSeverity]) and the description ([return_code_table]) of
    the [CMDSTATUS] line, and whether the archive stays out of
    [statistics["failure"]] ([returncode != 0]); [main_step_outcome]
    below relates it to the loop. *)
Definition classify (code : Z) : result (Z * string * bool) :=
  match return_code_table !! code with
  | Some description => Returned (getSeverity code, description, code =? 0)
  | None => Raised KeyError
  end.

(** The exit codes [return_code_table] has a row for. *)
Definition known_codes : list Z := [0; 1; 2; 7; 8; 255].

(** The classification table as the specification words it, with its
    row for every other code. *)
Definition classification_table (code : Z) : Z * string * bool :=
  if code =? 0 then (logging.INFO, "No error", true)
  else if code =? 1 then (logging.WARNING, "Warning", false)
  else if code =? 2 then (logging.ERROR, "Fatal error", false)
  else if code =? 7 then (logging.ERROR, "Command line error", false)
  else if code =? 8 then (logging.ERROR, "Not enough memory for operation", false)
  else if code =? 255 then (logging.WARNING, "User stopped the process", false)
  else (logging.ERROR, "unknown code", false).

(** The extension [seven_zip] looks at. *)
Definition extension (file_path : string) : string :=
  snd (posixpath.splitext (posixpath.basename file_path)).

(** The arguments of a command line between the executable and the final
    positional argument. *)
Definition options (cmd : list string) : list string := removelast (tail cmd).

(** The switches of a command line that set a password ([-p...]) and a
    code page ([-mcp=...]). *)
Definition password_flags (cmd : list string) : list string :=
  List.filter (Str.startswith "-p") (options cmd).

Definition codepage_flags (cmd : list string) : list string :=
  List.filter (Str.startswith "-mcp=") (options cmd).

(** The extensions for which a password, and a code page, is passed on. *)
Definition password_extensions : list string := [".zip"; ".7z"; ".rar"; ""].
Definition codepage_extensions : list string := [".zip"; ".tar"].

(** The base name of the executable without its extension, which
    [check_argument] looks up in [main_executables]. *)
Definition executable_name (args : Namespace) : string :=
  fst (posixpath.splitext (posixpath.basename (exe args))).

(** The names [os.scandir] yields for a directory. *)
Definition scandir_names (f : filesystem) (dir : string) : list string :=
  default [] (listing f !! dir).

(** Path expansion as the specification words it: the direct entries of
    a directory that are files, without the entries whose name begins
    with a dot; a file contributes itself, a directory its visible files;
    the inputs are resolved and expanded in the order given. *)
Definition visible_files (f : filesystem) (dir : string) : list string :=
  List.filter (isfile f)
    (map (posixpath.join dir)
       (List.filter (fun name => negb (Str.startswith "." name))
          (scandir_names f dir))).

Definition expand_one (f : filesystem) (absolute_path : string) : list string :=
  if isfile f absolute_path then [absolute_path]
  else visible_files f absolute_path.

Definition expand (abspath : string -> string) (f : filesystem)
    (inputs : list string) : list string :=
  flat_map (fun path => expand_one f (abspath path)) inputs.

(** An input that exists, as a file or as a directory. *)
Definition valid_input (abspath : string -> string) (f : filesystem)
    (path : string) : bool :=
  isfile f (abspath path) || isdir f (abspath path).

(** [w'] differs from [w] by new directories only: nothing is logged, no
    child has run, no path has changed its kind or disappeared. *)
Definition grows (w w' : world) : Prop :=
  log w' = log w ∧ children w' = children w ∧
  ∀ q, stat (fs w') !! q = stat (fs w) !! q
       ∨ (stat (fs w) !! q = None ∧ stat (fs w') !! q = Some Dir).

(** [k] is the first index from [i] on whose suffixed name is not a
    regular file. *)
Definition first_free (f : filesystem) (abs : string) (i k : nat) : Prop :=
  (i <= k)%nat ∧ isfile f (abs +:+ suffix k) = false ∧
  ∀ j, (i <= j < k)%nat -> isfile f (abs +:+ suffix j) = true.

(** The path [create_dir] settles on for the absolute path [abs]. *)
Definition chosen (f : filesystem) (abs target : string) : Prop :=
  (isfile f abs = false ∧ target = abs) ∨
  (isfile f abs = true ∧ ∃ k, first_free f abs 1 k ∧ target = abs +:+ suffix k).

(** Every regular file lies in a directory. *)
Definition well_formed (f : filesystem) : bool :=
  forallb (fun '(p, k) =>
             match k with
             | File => isdir f (posixpath.dirname p)
             | Dir | Special | Dangling => true
             end)
          (map_to_list (stat f)).

(** The archive a child process was started for: the last argument of
    its command line. *)
Definition archive_of (p : CompletedProcess) : option string :=
  last (proc_args p).

(** The number of child processes that ended with a non-zero exit code. *)
Definition failures (procs : list CompletedProcess) : nat :=
  length (List.filter (fun p => negb (returncode p =? 0)) procs).

(** The exceptions a directory creation, and the start of a child
    process, end with when they fail: the errors of the operating system
    and, for [os.makedirs], [RecursionError]. *)
Definition creation_error (e : exception) : bool :=
  match e with
  | FileExistsError | FileNotFoundError | NotADirectoryError
  | PermissionError | OSError | RecursionError => true
  | KeyError | IndexError => false
  end.

(** A call that returns, or fails as a directory creation does. *)
Definition creation_result {A} (r : result A) : Prop :=
  match r with
  | Returned _ => True
  | Raised e => creation_error e = true
  | Exited _ | Diverged => False
  end.

(** A child that ended with one of the exit codes of the table. *)
Definition listed (p : CompletedProcess) : Prop :=
  In (returncode p) known_codes.

(** How a loop over [n] files that started with [failure] failures can
    end, [procs] being the children it has run: it returns when all [n]
    children ended with a listed exit code; before all have run, it
    raises the error of a directory creation or of a child that could
    not be started, or it waits for ever for a child that does not end;
    or it raises [KeyError] right after a child ended with an unlisted
    exit code. *)
Definition batch_result (n : nat) (total failure : Z)
    (procs : list CompletedProcess) (r : result (gmap string Z)) : Prop :=
  match r with
  | Returned statistics =>
      length procs = n ∧ Forall listed procs ∧
      statistics !! "total" = Some total ∧
      statistics !! "failure" = Some (failure + Z.of_nat (failures procs))
  | Raised e =>
      if creation_error e
      then Forall listed procs ∧ (length procs < n)%nat
      else e = KeyError ∧
           ∃ procs0 p, procs = procs0 ++ [p] ∧ Forall listed procs0 ∧ ¬ listed p
  | Diverged => Forall listed procs ∧ (length procs < n)%nat
  | Exited _ => False
  end.

(** [w] with one more line in its log. *)
Definition logged (level : Z) (msg : string) (w : world) : world :=
  {| fs := fs w;
     log := log w ++ [ {| levelno := level; message := msg |} ];
     children := children w |}.

(** What a scan of a directory may come to: it appends regular files
    to [files], or it raises; it does not end the process. *)
Definition scan_result (f : filesystem) (files : list string)
    (r : result (list string)) : Prop :=
  match r with
  | Returned files' =>
      ∃ extra, files' = files ++ extra
               ∧ Forall (fun file => isfile f file = true) extra
  | Raised _ => True
  | Exited _ | Diverged => False
  end.

(** The same for the loop of [get_file_list] over its inputs. *)
Definition loop_result (f : filesystem) (files : list string)
    (r : result (option (list string))) : Prop :=
  match r with
  | Returned (Some files') =>
      ∃ extra, files' = files ++ extra
               ∧ Forall (fun file => isfile f file = true) extra
  | Returned None | Raised _ => True
  | Exited _ | Diverged => False
  end.

(** The result [r] of a scan that started on the empty list, as the same
    scan gives it when it starts on [pre]. *)
Definition extended (pre : list string) (r : result (list string))
  : result (list string) :=
  match r with
  | Returned files => Returned (pre ++ files)
  | Raised e => Raised e
  | Exited n => Exited n
  | Diverged => Diverged
  end.

Definition extended_loop (pre : list string)
    (r : result (option (list string))) : result (option (list string)) :=
  match r with
  | Returned files => Returned ((fun files => pre ++ files) <$> files)
  | Raised e => Raised e
  | Exited n => Exited n
  | Diverged => Diverged
  end.

(** The lines one round of the loop of [main] logs for [files[i]]. *)
Definition round_lines (i : nat) (total : Z) (file : string)
    (separate_dir : option string) (rtn : CompletedProcess)
    (description : string) : list LogRecord :=
  [ {| levelno := logging.INFO;
       message := tag "IDX/TOTAL" +:+ fmt_05 (Z.of_nat i + 1) +:+ "/"
                  +:+ fmt_05 total |};
    {| levelno := logging.INFO; message := tag "IN_FILE" +:+ file |};
    {| levelno := logging.INFO;
       message := tag "OUT_DIR" +:+ str_of separate_dir |};
    {| levelno := getSeverity (returncode rtn);
       message := tag "CMDSTATUS" +:+ pretty (returncode rtn) +:+ ","
                  +:+ description |} ].

(** The lines logged above [logging.INFO]. *)
Definition alarms (lines : list LogRecord) : list LogRecord :=
  List.filter (fun line => logging.INFO <? levelno line) lines.

(** The child [p] ran the command [seven_zip] builds for [file], with
    the password and the code page of [args]. *)
Definition extracts (exe_path : string) (args : Namespace)
    (p : CompletedProcess) (file : string) : Prop :=
  ∃ out_dir,
    proc_args p
    = seven_zip_cmd exe_path file out_dir (password args) (codepage args).

(** ** A small world to run the script in *)

Module Demo.

(** The working directory is [/D]. *)
Definition abspath (p : string) : string :=
  if Str.startswith "/" p then p else "/D/" +:+ p.

Definition script_file : string := "/opt/d7.py".

(** A 7-Zip that extracts nothing and ends with the code [code] gives
    for the archive. *)
Definition spawn (code : string -> Z) (cmd : list string) (f : filesystem)
  : started :=
  Ended (code (default "" (last cmd))) "" "" f.

(** [/D] holds two archives, a hidden file, a plain file [a] and its
    namesake [a(1)], a sub-directory with one file, and the executable. *)
Definition disk : filesystem :=
  {| stat := list_to_map
       [ ("/", Dir); ("/D", Dir);
         ("/D/a.zip", File); ("/D/b.7z", File); ("/D/.hidden.zip", File);
         ("/D/a", File); ("/D/a(1)", File);
         ("/D/sub", Dir); ("/D/sub/c.rar", File);
         ("/D/7z", File) ];
     listing := list_to_map
       [ ("/", ["D"]);
         ("/D", ["a.zip"; ".hidden.zip"; "sub"; "b.7z"; "a"; "a(1)"; "7z"]);
         ("/D/sub", ["c.rar"]) ];
     refused := ∅ |}.

Definition start : world := {| fs := disk; log := []; children := [] |}.

(** The same with a FIFO named [a(2)] in [/D]. *)
Definition disk_with_fifo : filesystem :=
  {| stat := <["/D/a(2)" := Special]> (stat disk);
     listing := <["/D" := ["a.zip"; ".hidden.zip"; "sub"; "b.7z"; "a"; "a(1)";
                           "7z"; "a(2)"]]> (listing disk);
     refused := ∅ |}.

Definition start_with_fifo : world :=
  {| fs := disk_with_fifo; log := []; children := [] |}.

Definition argv : Namespace :=
  {| codepage := Some 65001; input := ["a.zip"; "b.7z"]; output := None;
     password := Some "pw"; exe := "7z" |}.

(** [a.zip] extracts, [b.7z] ends with a fatal error. *)
Definition code_fatal (archive : string) : Z :=
  if String.eqb archive "/D/b.7z" then 2 else 0.

(** 7-Zip is killed by signal 9 while it extracts [a.zip]: [subprocess]
    reports the exit code -9, which the table has no row for. *)
Definition code_killed (archive : string) : Z :=
  if String.eqb archive "/D/a.zip" then -9 else 0.

(** [a.zip] extracts, 7-Zip crashes on [b.7z] with a segmentation
    fault: [subprocess] reports the exit code -11. *)
Definition code_crashed (archive : string) : Z :=
  if String.eqb archive "/D/b.7z" then -11 else 0.

End Demo.

(** * Properties *)

Ltac unfold_monad := unfold mbind, M_bind, mret, M_ret in *.

(** ** Strings and paths *)

Section StringFacts.

Lemma startswith_empty s : Str.startswith "" s = true.
Proof. by destruct s. Qed.

Lemma mem_app c (a b : string) :
  Str.mem c (a +:+ b) = Str.mem c a || Str.mem c b.
Proof.
  induction a as [|x a IH]; simpl; [done|]. by rewrite IH, orb_assoc.
Qed.

Lemma rfind_from_app c (a b : string) i found :
  Str.rfind_from c (a +:+ b) i found =
  Str.rfind_from c b (i + Z.of_nat (String.length a))
    (Str.rfind_from c a i found).
Proof.
  revert i found. induction a as [|x a IH]; intros i found; simpl.
  - by rewrite Z.add_0_r.
  - rewrite IH. f_equal. lia.
Qed.

Lemma rfind_from_absent c (s : string) i found :
  Str.mem c s = false -> Str.rfind_from c s i found = found.
Proof.
  revert i found. induction s as [|x s IH]; intros i found; simpl; [done|].
  intros [Hx Hs]%orb_false_iff. rewrite Hx. by apply IH.
Qed.

Lemma rfind_from_bound c (s : string) i found :
  -1 <= found < i -> 0 <= i ->
  -1 <= Str.rfind_from c s i found < i + Z.of_nat (String.length s).
Proof.
  revert i found. induction s as [|x s IH]; intros i found Hf Hi; simpl; [lia|].
  specialize (IH (i + 1) (if Ascii.eqb x c then i else found)).
  destruct (Ascii.eqb x c); lia.
Qed.

Lemma rfind_bound c s : -1 <= Str.rfind c s < Z.of_nat (String.length s).
Proof. unfold Str.rfind. pose proof (rfind_from_bound c s 0 (-1)). lia. Qed.

Lemma rfind_app_absent c (a b : string) :
  Str.mem c b = false -> Str.rfind c (a +:+ b) = Str.rfind c a.
Proof.
  intros H. unfold Str.rfind. rewrite rfind_from_app.
  by apply rfind_from_absent.
Qed.

Lemma take_app_le n (a b : string) :
  (n <= String.length a)%nat -> Str.take n (a +:+ b) = Str.take n a.
Proof.
  revert a. induction n as [|n IH]; intros a H.
  - by destruct a, b.
  - destruct a as [|x a]; simpl in *; [lia|]. f_equal. apply IH. lia.
Qed.

Lemma drop_app_le n (a b : string) :
  (n <= String.length a)%nat -> Str.drop n (a +:+ b) = Str.drop n a +:+ b.
Proof.
  revert a. induction n as [|n IH]; intros a H.
  - by destruct a, b.
  - destruct a as [|x a]; simpl in *; [lia|]. apply IH. lia.
Qed.

Lemma truthy_app_r (a b : string) :
  Str.truthy b = true -> Str.truthy (a +:+ b) = true.
Proof. destruct a; [done|]. by intros _. Qed.

Lemma app_inj_r_char (a b : string) c :
  a +:+ String c "" = b +:+ String c "" -> a = b.
Proof.
  revert b. induction a as [|x a IH]; intros [|y b]; simpl; try done.
  - intros [= _ H]. by destruct b.
  - intros [= _ H]. by destruct a.
  - intros [= -> H]. f_equal. by apply IH.
Qed.

(** A name without a separator, appended to a path, stays in the
    directory of that path. *)
Lemma split_app_absent (p s : string) :
  Str.mem posixpath.sep s = false ->
  posixpath.split (p +:+ s)
  = (fst (posixpath.split p), snd (posixpath.split p) +:+ s).
Proof.
  intros H. unfold posixpath.split. rewrite (rfind_app_absent _ _ _ H).
  pose proof (rfind_bound posixpath.sep p).
  rewrite take_app_le, drop_app_le by lia. done.
Qed.

(** The decimal digits of a number hold no character that is not a
    digit. *)
Lemma pretty_N_go_mem c x s :
  (∀ d, (d < 10)%N -> pretty_N_char d ≠ c) ->
  Str.mem c (pretty_N_go x s) = Str.mem c s.
Proof.
  intros Hc. revert s. induction (N.lt_wf_0 x) as [x _ IH]; intros s.
  destruct (decide (x = 0)%N) as [->|Hx]; [by rewrite pretty_N_go_0|].
  rewrite pretty_N_go_step by lia.
  rewrite IH by (apply N.div_lt; lia). simpl.
  destruct (Ascii.eqb_spec (pretty_N_char (x `mod` 10)) c) as [E|]; [|done].
  exfalso. eapply Hc; [|exact E]. apply N.mod_lt. lia.
Qed.

Lemma pretty_nat_no_sep (i : nat) : Str.mem posixpath.sep (pretty i) = false.
Proof.
  unfold pretty, pretty_nat, pretty, pretty_N.
  case_decide; [done|].
  apply pretty_N_go_mem. intros d Hd. unfold pretty_N_char.
  repeat case_match; done.
Qed.

Lemma suffix_no_sep i : Str.mem posixpath.sep (suffix i) = false.
Proof. unfold suffix. rewrite !mem_app, pretty_nat_no_sep. done. Qed.

Lemma suffix_inj abs i j : abs +:+ suffix i = abs +:+ suffix j -> i = j.
Proof.
  unfold suffix. intros H%(inj (String.append abs)).
  injection H as H. apply app_inj_r_char in H. by apply (inj pretty) in H.
Qed.

End StringFacts.

(** ** The monad *)

Section MonadFacts.

Lemma bind_Returned {A B} (m : M A) (f : A -> M B) w b w' :
  (m ≫= f) w = (Returned b, w') ->
  ∃ a w1, m w = (Returned a, w1) ∧ f a w1 = (Returned b, w').
Proof.
  unfold_monad. destruct (m w) as [[a|e|n|] w1]; try done. eauto.
Qed.

Lemma bind_Exited {A B} (m : M A) (f : A -> M B) w n :
  fst (m w) = Exited n -> fst ((m ≫= f) w) = Exited n.
Proof.
  unfold_monad. destruct (m w) as [[a|e|n'|] w1]; simpl; congruence.
Qed.

Lemma bind_step {A B} (m : M A) (f : A -> M B) w a w1 :
  m w = (Returned a, w1) -> (m ≫= f) w = f a w1.
Proof. intros H. unfold_monad. by rewrite H. Qed.

Lemma getitem_Some `{Countable K} {V} (d : gmap K V) k v w :
  d !! k = Some v -> getitem d k w = (Returned v, w).
Proof. intros E. unfold getitem. by rewrite E. Qed.

Lemma logger_log_inv level msg w r w' :
  logger_log level msg w = (r, w') ->
  r = Returned tt ∧ children w' = children w ∧ fs w' = fs w.
Proof. unfold logger_log. destruct (_ <=? _); by intros [= <- <-]. Qed.

Lemma logger_log_emits level msg w :
  (logging.INFO <=? level) = true ->
  logger_log level msg w
  = (Returned tt,
     {| fs := fs w;
        log := log w ++ [ {| levelno := level; message := msg |} ];
        children := children w |}).
Proof. intros H. unfold logger_log. by rewrite H. Qed.

Lemma logger_log_Returned level msg w :
  ∃ w', logger_log level msg w = (Returned tt, w').
Proof. unfold logger_log. destruct (_ <=? _); eauto. Qed.

Lemma bind_logger_log {B} level msg (f : unit -> M B) w :
  (logger_log level msg ≫= f) w = f tt (snd (logger_log level msg w)).
Proof.
  unfold_monad. unfold logger_log. by destruct (_ <=? _).
Qed.

Lemma logger_log_children level msg w :
  children (snd (logger_log level msg w)) = children w.
Proof. unfold logger_log. by destruct (_ <=? _). Qed.

Lemma for_each_cons {A S} (x : A) xs (body : A -> S -> M S) acc :
  for_each (x :: xs) body acc = (acc' ← body x acc; for_each xs body acc').
Proof. done. Qed.

End MonadFacts.

(** ** Exit codes *)

Lemma classify_known code :
  In code known_codes -> classify code = Returned (classification_table code).
Proof.
  unfold known_codes. simpl.
  intros [<-|[<-|[<-|[<-|[<-|[<-|[]]]]]]]; reflexivity.
Qed.

(** [return_code_table] has a row for the six codes and for no other. *)
Lemma return_code_table_lookup code :
  return_code_table !! code =
    if bool_decide (In code known_codes)
    then Some (snd (fst (classification_table code))) else None.
Proof.
  unfold return_code_table, known_codes.
  case_bool_decide as H.
  - simpl in H. destruct H as [?|[?|[?|[?|[?|[?|[]]]]]]]; subst code; reflexivity.
  - simpl in H. cbn [list_to_map foldr uncurry fst snd].
    rewrite !lookup_insert_ne by (intros ?; tauto).
    apply lookup_empty.
Qed.

Lemma classify_success code level description success :
  classify code = Returned (level, description, success) ->
  success = (code =? 0).
Proof.
  unfold classify. destruct (return_code_table !! code); [|done].
  by intros [= _ _ <-].
Qed.

(** Every level [getSeverity] returns passes the level of the logger. *)
Lemma getSeverity_ge_INFO code : (logging.INFO <=? getSeverity code) = true.
Proof. unfold getSeverity. by repeat case_match. Qed.

(** What holds of the table: for the six exit codes 0, 1, 2, 7, 8 and
    255 the level, the description and the success flag are those of the
    specification; every other exit code has the level [logging.ERROR]
    and counts as a failure. *)
Lemma classify_table code :
  (In code known_codes -> classify code = Returned (classification_table code)) ∧
  (¬ In code known_codes ->
   getSeverity code = logging.ERROR ∧ (code =? 0) = false).
Proof.
  split; [apply classify_known|].
  intros H. unfold known_codes in H. simpl in H.
  unfold getSeverity.
  destruct (Z.eqb_spec code 0); [lia|].
  destruct (Z.eqb_spec code 1); [lia|].
  destruct (Z.eqb_spec code 255); [lia|]. done.
Qed.

(** An exit code outside the six has no description: the look-up
    raises. *)
Lemma classify_unlisted code :
  ¬ In code known_codes -> classify code = Raised KeyError.
Proof.
  intros H. unfold classify. rewrite return_code_table_lookup.
  by rewrite bool_decide_eq_false_2.
Qed.

(** C3 at the exit codes 3 and -9, which the table of the code has no row
    for: the level is [logging.ERROR] and the archive counts as a
    failure, as the specification has it, but the look-up of the
    description raises [KeyError] where the specification has
    "unknown code". *)
Theorem classify_unlisted_code :
  classification_table 3 = (logging.ERROR, "unknown code", false)
  ∧ getSeverity 3 = logging.ERROR ∧ (3 =? 0) = false
  ∧ return_code_table !! 3 = None
  ∧ classify 3 = Raised KeyError
  ∧ classify (-9) = Raised KeyError.
Proof. vm_compute. repeat split; reflexivity. Qed.

(** ** The command line *)

Lemma seven_zip_cmd_shape exe_path file_path out_dir password code_page :
  seven_zip_cmd exe_path file_path out_dir password code_page =
    [exe_path; "x"; "-y"; "-aoa"; "-o" +:+ str_of out_dir]
    ++ (if bool_decide (extension file_path ∈ password_extensions)
           && bool_decide (password ≠ None)
        then ["-p" +:+ str_of password] else [])
    ++ (if bool_decide (extension file_path ∈ codepage_extensions)
           && bool_decide (code_page ≠ None)
        then ["-mcp=" +:+ str_of_int code_page] else [])
    ++ [file_path].
Proof.
  unfold seven_zip_cmd, extension, password_extensions, codepage_extensions.
  destruct (posixpath.splitext _) as [name ext]. simpl.
  repeat case_bool_decide; reflexivity.
Qed.

Lemma seven_zip_cmd_last exe_path file_path out_dir password code_page :
  last (seven_zip_cmd exe_path file_path out_dir password code_page)
  = Some file_path.
Proof.
  unfold seven_zip_cmd. destruct (posixpath.splitext _) as [name ext].
  by rewrite last_snoc.
Qed.

(** C4, as the code has it: the command line carries a password switch
    exactly when a password was supplied and the extension of the
    archive, compared as it is written, is [.zip], [.7z], [.rar] or
    empty; the switch is then [-p] followed by the password. *)
Theorem password_flag_rule exe_path file_path out_dir password code_page :
  password_flags (seven_zip_cmd exe_path file_path out_dir password code_page) =
    if bool_decide (password ≠ None ∧ extension file_path ∈ password_extensions)
    then ["-p" +:+ str_of password] else [].
Proof.
  rewrite seven_zip_cmd_shape. unfold password_flags, options.
  repeat case_bool_decide; simpl; rewrite ?startswith_empty; try tauto;
    reflexivity.
Qed.

(** C4, as stated, fails for an extension written in capitals: the
    lower-cased extension of [secret.ZIP] is [.zip] and a password is
    supplied, yet the command line has no password switch. *)
Lemma password_flag_capital_extension :
  let cmd := seven_zip_cmd "/D/7z" "/D/secret.ZIP" (Some "/D/secret")
               (Some "pw") None in
  ¬ (password_flags cmd ≠ [] ↔
     Some "pw" ≠ (None : option string)
     ∧ Str.lower (extension "/D/secret.ZIP") ∈ password_extensions).
Proof.
  intros cmd [_ H]. apply H; [|reflexivity].
  split; [done|]. vm_compute. apply list_elem_of_here.
Qed.

(** The two examples of the specification. *)
Example password_flag_rar :
  password_flags (seven_zip_cmd "/D/7z" "secret.rar" (Some "/D/secret")
                    (Some "pw") None) = ["-ppw"].
Proof. reflexivity. Qed.

Example password_flag_tar_gz :
  extension "secret.tar.gz" = ".gz" ∧
  password_flags (seven_zip_cmd "/D/7z" "secret.tar.gz" (Some "/D/secret.tar")
                    (Some "pw") None) = [].
Proof. split; reflexivity. Qed.

(** C5: the command line carries a code page switch exactly when a code
    page was supplied and the extension of the archive is [.zip] or
    [.tar], and its last argument is the path of the archive. *)
Theorem codepage_flag_rule exe_path file_path out_dir password code_page :
  let cmd := seven_zip_cmd exe_path file_path out_dir password code_page in
  codepage_flags cmd =
    (if bool_decide (code_page ≠ None
                     ∧ extension file_path ∈ codepage_extensions)
     then ["-mcp=" +:+ str_of_int code_page] else [])
  ∧ last cmd = Some file_path.
Proof.
  intros cmd. subst cmd. split; [|apply seven_zip_cmd_last].
  rewrite seven_zip_cmd_shape. unfold codepage_flags, options.
  repeat case_bool_decide; simpl; rewrite ?startswith_empty; try tauto;
    reflexivity.
Qed.

Example codepage_flag_zip :
  codepage_flags (seven_zip_cmd "/D/7z" "data.zip" (Some "/D/data") None
                    (Some 65001)) = ["-mcp=65001"].
Proof. reflexivity. Qed.

Example codepage_flag_7z :
  codepage_flags (seven_zip_cmd "/D/7z" "data.7z" (Some "/D/data") None
                    (Some 65001)) = [].
Proof. reflexivity. Qed.

(** ** Directory allocation *)

Section GrowsFacts.

Lemma grows_refl w : grows w w.
Proof. repeat split; auto. Qed.

Lemma grows_trans w1 w2 w3 : grows w1 w2 -> grows w2 w3 -> grows w1 w3.
Proof.
  intros (Hl1 & Hc1 & H1) (Hl2 & Hc2 & H2).
  repeat split; [congruence..|].
  intros q. destruct (H1 q) as [E1|[E1 E1']], (H2 q) as [E2|[E2 E2']];
    first [left; congruence | right; split; congruence].
Qed.

Lemma grows_isfile w w' q : grows w w' -> isfile (fs w') q = isfile (fs w) q.
Proof.
  intros (_ & _ & H). unfold isfile.
  destruct (H q) as [->|[E1 E2]]; [done|]. rewrite E1, E2.
  rewrite !bool_decide_eq_false_2; done.
Qed.

End GrowsFacts.

#[local] Hint Resolve grows_refl : core.

Lemma os_mkdir_inv name w r w' :
  os_mkdir name w = (r, w') ->
  grows w w' ∧ (r = Returned tt -> stat (fs w') !! name = Some Dir).
Proof.
  unfold os_mkdir, get_fs, put_fs, raise. unfold_monad.
  destruct (posixpath.split name) as [head tail].
  destruct (refused (fs w) !! name) as [e|].
  { intros [= <- <-]. split; [apply grows_refl|done]. }
  destruct (stat (fs w) !! name) as [k|] eqn:En.
  { intros [= <- <-]. split; [apply grows_refl|done]. }
  destruct (stat (fs w) !! head) as [[| | |]|] eqn:Eh; intros [= <- <-];
    try (split; [apply grows_refl|done]).
  simpl. split.
  - repeat split; simpl; auto. intros q.
    destruct (decide (q = name)) as [->|Hne].
    + right. by rewrite lookup_insert_eq.
    + left. by rewrite lookup_insert_ne.
  - intros _. by rewrite lookup_insert_eq.
Qed.

(** [os.makedirs] only adds directories, and when it returns the
    directory asked for is there. *)
Lemma makedirs_at_inv depth name w r w' :
  makedirs_at depth name w = (r, w') ->
  grows w w' ∧ (r = Returned tt -> stat (fs w') !! name = Some Dir).
Proof.
  revert name w r w'. induction depth as [|depth IH]; intros name w r w'.
  - simpl. unfold os_path_exists, get_fs, raise. unfold_monad.
    destruct (posixpath.split name) as [head tail].
    match goal with
    | |- context [let '(_, _) := ?p in _] => destruct p as [head' tail']
    end.
    match goal with
    | |- context [if ?b then _ else _] => destruct b
    end.
    + intros [= <- <-]. split; [apply grows_refl|done].
    + apply os_mkdir_inv.
  - simpl. unfold os_path_exists, get_fs, raise, try_pass. unfold_monad.
    destruct (posixpath.split name) as [head tail].
    match goal with
    | |- context [let '(_, _) := ?p in _] => destruct p as [head' tail']
    end.
    match goal with
    | |- context [if ?b then _ else _] => destruct b
    end.
    + destruct (makedirs_at depth head' w) as [[[]|e|n|] w1] eqn:E;
        apply IH in E as [Hg _].
      * intros H. apply os_mkdir_inv in H as [Hg' H]. split; [|done].
        by eapply grows_trans.
      * destruct (decide (e = FileExistsError)).
        -- intros H. apply os_mkdir_inv in H as [Hg' H]. split; [|done].
           by eapply grows_trans.
        -- intros [= <- <-]. split; [done|done].
      * intros [= <- <-]. split; [done|done].
      * intros [= <- <-]. split; [done|done].
    + apply os_mkdir_inv.
Qed.

Lemma os_mkdir_result name w : creation_result (fst (os_mkdir name w)).
Proof.
  unfold os_mkdir, get_fs, put_fs, raise. unfold_monad.
  destruct (posixpath.split name) as [head tail].
  destruct (refused (fs w) !! name) as [[]|]; [done..|].
  destruct (stat (fs w) !! name); [done|].
  destruct (stat (fs w) !! head) as [[| | |]|]; done.
Qed.

Lemma makedirs_at_result depth name w :
  creation_result (fst (makedirs_at depth name w)).
Proof.
  revert name w. induction depth as [|depth IH]; intros name w.
  - simpl. unfold os_path_exists, get_fs, raise. unfold_monad.
    destruct (posixpath.split name) as [head tail].
    match goal with
    | |- context [let '(_, _) := ?p in _] => destruct p as [head' tail']
    end.
    match goal with
    | |- context [if ?b then _ else _] => destruct b
    end; [done|apply os_mkdir_result].
  - simpl. unfold os_path_exists, get_fs, raise, try_pass. unfold_monad.
    destruct (posixpath.split name) as [head tail].
    match goal with
    | |- context [let '(_, _) := ?p in _] => destruct p as [head' tail']
    end.
    match goal with
    | |- context [if ?b then _ else _] => destruct b
    end; [|apply os_mkdir_result].
    specialize (IH head' w).
    destruct (makedirs_at depth head' w) as [[[]|e|n|] w1]; simpl in IH;
      try done; [apply os_mkdir_result|].
    destruct (decide (e = FileExistsError)); [apply os_mkdir_result|done].
Qed.

(** When the parent is a directory, [os.makedirs] comes to one
    [os.mkdir]. *)
Lemma makedirs_at_parent depth name w :
  Str.truthy (snd (posixpath.split name)) = true ->
  isdir (fs w) (fst (posixpath.split name)) = true ->
  makedirs_at depth name w = os_mkdir name w.
Proof.
  intros Ht Hd.
  assert (∀ rec : string -> M unit,
    (let '(head, tail) := posixpath.split name in
     let '(head, tail) :=
       if Str.truthy tail then (head, tail) else posixpath.split head in
     head_exists ← os_path_exists head;
     (if Str.truthy head && Str.truthy tail && negb head_exists
      then rec head else mret tt);;
     os_mkdir name) w
    = os_mkdir name w) as Hskip.
  { intros rec. destruct (posixpath.split name) as [head tail] eqn:Es.
    simpl in Ht, Hd. rewrite Ht.
    unfold os_path_exists, get_fs, exists_. unfold_monad.
    apply bool_decide_eq_true in Hd. rewrite Hd.
    by rewrite andb_false_r. }
  destruct depth as [|depth].
  - exact (Hskip (fun _ => raise RecursionError)).
  - exact (Hskip (fun h => try_pass FileExistsError (makedirs_at depth h))).
Qed.

(** If the [n] suffixed names from 1 on are all regular files, the file
    system has at least [n] paths. *)
Lemma many_files_bound (f : filesystem) abs n :
  (∀ j, (1 <= j < 1 + n)%nat -> isfile f (abs +:+ suffix j) = true) ->
  (n <= size (stat f))%nat.
Proof.
  intros H.
  set (l := (fun j => abs +:+ suffix j) <$> seq 1 n).
  assert (NoDup l) as Hnd.
  { apply NoDup_fmap_2_strong; [|apply NoDup_seq].
    intros i j _ _. apply suffix_inj. }
  assert (list_to_set l ⊆ dom (stat f)) as Hsub.
  { intros q [j [-> Hj]]%elem_of_list_to_set%list_elem_of_fmap.
    apply elem_of_seq in Hj. apply elem_of_dom.
    specialize (H j ltac:(lia)). unfold isfile in H.
    apply bool_decide_eq_true in H. by rewrite H. }
  apply subseteq_size in Hsub.
  rewrite size_list_to_set, size_dom in Hsub by done.
  subst l. by rewrite length_fmap, length_seq in Hsub.
Qed.

Lemma first_free_suffix_inv fuel abs i w :
  (∃ k, first_free (fs w) abs i k ∧ (k < i + fuel)%nat ∧
        first_free_suffix fuel abs i w = (Returned (abs +:+ suffix k), w))
  ∨ ((∀ j, (i <= j < i + fuel)%nat -> isfile (fs w) (abs +:+ suffix j) = true) ∧
     first_free_suffix fuel abs i w = (Diverged, w)).
Proof.
  revert i. induction fuel as [|fuel IH]; intros i.
  - right. split; [intros j; lia|done].
  - simpl. unfold os_path_isfile, get_fs. unfold_monad.
    destruct (isfile (fs w) (abs +:+ suffix i)) eqn:E; simpl.
    + destruct (IH (S i)) as [(k & (Hk1 & Hk2 & Hk3) & Hlt & ->)|[Hall ->]].
      * left. exists k. split; [|split; [lia|done]].
        split; [lia|]. split; [done|]. intros j Hj.
        destruct (decide (j = i)) as [->|]; [done|]. apply Hk3. lia.
      * right. split; [|done]. intros j Hj.
        destruct (decide (j = i)) as [->|]; [done|]. apply Hall. lia.
    + left. exists i. split; [|split; [lia|done]].
      split; [lia|]. split; [done|]. intros j; lia.
Qed.

(** The search for a free suffix ends within the rounds [create_dir]
    gives it, at the first suffix that is not a regular file. *)
Lemma first_free_suffix_returns abs w :
  ∃ k, first_free (fs w) abs 1 k ∧
       first_free_suffix (S (size (stat (fs w)))) abs 1 w
       = (Returned (abs +:+ suffix k), w).
Proof.
  destruct (first_free_suffix_inv (S (size (stat (fs w)))) abs 1 w)
    as [(k & Hk & _ & E)|[Hall _]]; [by exists k|].
  apply many_files_bound in Hall. lia.
Qed.

Lemma first_free_unique f abs i k k' :
  first_free f abs i k -> first_free f abs i k' -> k = k'.
Proof.
  intros (H1 & H2 & H3) (H1' & H2' & H3').
  destruct (lt_eq_lt_dec k k') as [[Hlt|]|Hlt]; [|done|].
  - rewrite H3' in H2 by lia. done.
  - rewrite H3 in H2' by lia. done.
Qed.

Lemma chosen_unique f abs t t' : chosen f abs t -> chosen f abs t' -> t = t'.
Proof.
  intros [[E ->]|[E (k & Hk & ->)]] [[E' ->]|[E' (k' & Hk' & ->)]];
    try congruence.
  by rewrite (first_free_unique _ _ _ _ _ Hk Hk').
Qed.

Lemma chosen_grows w w' abs t :
  grows w w' -> chosen (fs w') abs t -> chosen (fs w) abs t.
Proof.
  intros Hg. unfold chosen, first_free.
  intros [[E ->]|[E (k & (Hk1 & Hk2 & Hk3) & ->)]].
  - left. by rewrite <- (grows_isfile _ _ _ Hg).
  - right. rewrite <- (grows_isfile _ _ _ Hg). split; [done|].
    exists k. split; [|done]. split; [done|].
    split; [by rewrite <- (grows_isfile _ _ _ Hg)|].
    intros j Hj. rewrite <- (grows_isfile _ _ _ Hg). by apply Hk3.
Qed.

Lemma well_formed_isfile f p :
  well_formed f = true -> isfile f p = true ->
  isdir f (posixpath.dirname p) = true.
Proof.
  unfold well_formed, isfile. rewrite forallb_forall, bool_decide_eq_true.
  intros H Hp. apply elem_of_map_to_list, list_elem_of_In in Hp.
  exact (H _ Hp).
Qed.

Section CreateDir.

Variable abspath : string -> string.

Lemma create_dir_falsy dir_path w :
  truthy dir_path = false ->
  create_dir abspath dir_path w = (Returned None, w).
Proof. intros H. unfold create_dir. rewrite H. done. Qed.

(** What [create_dir] does for a path that is set: it settles on the
    path itself or on its first free suffixed name, returns it unchanged
    when it is a directory, and otherwise ends as [os.makedirs] does. *)
Lemma create_dir_inv dir_path w r w' :
  truthy dir_path = true ->
  create_dir abspath dir_path w = (r, w') ->
  ∃ target, chosen (fs w) (abspath (str_of dir_path)) target ∧ grows w w' ∧
    if isdir (fs w) target
    then r = Returned (Some target) ∧ w' = w
    else ∃ r0, os_makedirs target w = (r0, w') ∧
         match r0 with
         | Returned _ =>
             r = Returned (Some target) ∧ isdir (fs w') target = true
         | Raised e => r = Raised e
         | Exited n => r = Exited n
         | Diverged => r = Diverged
         end.
Proof.
  intros Ht. unfold create_dir. rewrite Ht.
  set (abs := abspath (str_of dir_path)).
  assert (∃ target, chosen (fs w) abs target ∧
            (if isfile (fs w) abs
             then first_free_suffix (S (size (stat (fs w)))) abs 1 w
             else (Returned abs, w)) = (Returned target, w))
    as (target & Hch & E).
  { destruct (isfile (fs w) abs) eqn:Ef.
    - destruct (first_free_suffix_returns abs w) as (k & Hk & E).
      exists (abs +:+ suffix k). split; [right; eauto|]. done.
    - exists abs. split; [by left|done]. }
  intros H. exists target. split; [done|].
  cbv beta iota delta
    [mbind M_bind mret M_ret os_path_isfile os_path_isdir get_fs] in H.
  destruct (isfile (fs w) abs);
    [rewrite E in H|injection E as E; rewrite E in H].
  all: destruct (isdir (fs w) target) eqn:Ed; cbv beta iota delta [negb] in H.
  all: try (injection H as <- <-; split; [apply grows_refl|done]).
  all: destruct (os_makedirs target w) as [r0 w1] eqn:Em.
  all: pose proof (makedirs_at_inv _ _ _ _ _ Em) as [Hg Hd].
  all: destruct r0 as [[]|e|n|]; injection H as <- <-; (split; [done|]);
      eexists; (split; [reflexivity|]); try done.
  all: split; [done|]; unfold isdir; rewrite Hd by done;
    by apply bool_decide_eq_true.
Qed.

Lemma create_dir_grows dir_path w r w' :
  create_dir abspath dir_path w = (r, w') -> grows w w'.
Proof.
  intros H. destruct (truthy dir_path) eqn:Ht.
  - by destruct (create_dir_inv _ _ _ _ Ht H) as (_ & _ & Hg & _).
  - rewrite create_dir_falsy in H by done. injection H as <- <-.
    apply grows_refl.
Qed.

Lemma create_dir_result dir_path w :
  creation_result (fst (create_dir abspath dir_path w)).
Proof.
  destruct (truthy dir_path) eqn:Ht.
  2: { by rewrite create_dir_falsy. }
  destruct (create_dir abspath dir_path w) as [r w'] eqn:H.
  destruct (create_dir_inv _ _ _ _ Ht H) as (target & _ & _ & Hres).
  destruct (isdir (fs w) target).
  - by destruct Hres as [-> _].
  - destruct Hres as (r0 & Hm & Hr0).
    pose proof (makedirs_at_result recursion_limit target w) as Hc.
    unfold os_makedirs in Hm. rewrite Hm in Hc. simpl in *.
    destruct r0; try done.
    + by destruct Hr0 as [-> _].
    + by subst r.
Qed.

(** C7: when a call of [create_dir] has returned a directory, a second
    call with the same path on the file system it left returns the same
    directory and changes nothing: it creates no directory and does not
    raise. *)
Theorem create_dir_idempotent dir_path w r w1 :
  create_dir abspath dir_path w = (Returned r, w1) ->
  create_dir abspath dir_path w1 = (Returned r, w1).
Proof.
  intros H1. destruct (truthy dir_path) eqn:Ht.
  2: { rewrite create_dir_falsy in H1 by done. injection H1 as <- <-.
       by apply create_dir_falsy. }
  destruct (create_dir_inv _ _ _ _ Ht H1) as (target & Hch & Hg & Hres).
  assert (r = Some target ∧ isdir (fs w1) target = true) as [-> Hd].
  { destruct (isdir (fs w) target) eqn:Ed.
    - destruct Hres as [[= ->] ->]. done.
    - destruct Hres as (r0 & _ & Hr0).
      destruct r0; try done. destruct Hr0 as [[= ->] ?]. done. }
  destruct (create_dir abspath dir_path w1) as [r2 w2] eqn:H2.
  destruct (create_dir_inv _ _ _ _ Ht H2) as (target' & Hch' & _ & Hres').
  apply (chosen_grows _ _ _ _ Hg) in Hch'.
  rewrite (chosen_unique _ _ _ _ Hch' Hch) in Hres'.
  rewrite Hd in Hres'. destruct Hres' as [-> ->]. done.
Qed.

(** C6, as the code has it: for a non-empty path whose absolute form
    [abs] is a regular file, on a file system where every regular file
    lies in a directory, [create_dir] settles on [abs(k)] for the
    first [k >= 1] such that [abs(k)] is not a regular file.  When that
    name is a directory already, it is returned and nothing changes;
    when nothing is at that name and the operating system does not
    refuse, it is made a directory and returned; when the operating
    system refuses, or the name is taken by what is neither a regular
    file nor a directory, the creation fails: [create_dir] raises the
    error of [os.makedirs] and nothing changes.  In every case no
    regular file appears or goes. *)
Theorem create_dir_beside_file p w :
  Str.truthy p = true ->
  isfile (fs w) (abspath p) = true ->
  well_formed (fs w) = true ->
  ∃ k r w',
    (1 <= k)%nat ∧
    (∀ j, (1 <= j < k)%nat -> isfile (fs w) (abspath p +:+ suffix j) = true) ∧
    isfile (fs w) (abspath p +:+ suffix k) = false ∧
    create_dir abspath (Some p) w = (r, w') ∧
    (∀ q, isfile (fs w') q = isfile (fs w) q) ∧
    match stat (fs w) !! (abspath p +:+ suffix k),
          refused (fs w) !! (abspath p +:+ suffix k) with
    | Some Dir, _ =>
        r = Returned (Some (abspath p +:+ suffix k)) ∧ w' = w
    | None, None =>
        r = Returned (Some (abspath p +:+ suffix k))
        ∧ isdir (fs w') (abspath p +:+ suffix k) = true
    | _, Some e => r = Raised (OSError_of e) ∧ w' = w
    | Some _, None => r = Raised FileExistsError ∧ w' = w
    end.
Proof.
  intros Ht Hf Hwf.
  destruct (create_dir abspath (Some p) w) as [r w'] eqn:H.
  destruct (create_dir_inv (Some p) _ _ _ Ht H)
    as (target & Hch & Hg & Hres).
  simpl in Hch. destruct Hch as [[E _]|[_ (k & Hk & ->)]]; [congruence|].
  exists k, r, w'. destruct Hk as (Hk1 & Hk2 & Hk3).
  set (target := abspath p +:+ suffix k) in *.
  split; [done|]. split; [done|]. split; [done|]. split; [done|].
  split; [intros q; by apply grows_isfile|].
  assert (os_makedirs target w = os_mkdir target w) as Hmk.
  { apply makedirs_at_parent; unfold target;
      rewrite split_app_absent by apply suffix_no_sep; simpl.
    - by apply truthy_app_r.
    - by apply well_formed_isfile. }
  assert (stat (fs w) !! fst (posixpath.split target) = Some Dir) as Hhead.
  { unfold target. rewrite split_app_absent by apply suffix_no_sep. simpl.
    apply well_formed_isfile in Hf; [|done].
    by apply bool_decide_eq_true in Hf. }
  unfold isfile in Hk2. apply bool_decide_eq_false in Hk2.
  destruct (isdir (fs w) target) eqn:Ed.
  { apply bool_decide_eq_true in Ed. rewrite Ed. done. }
  apply bool_decide_eq_false in Ed.
  destruct Hres as (r0 & Hm & Hr0). rewrite Hmk in Hm.
  unfold os_mkdir, get_fs, put_fs, raise in Hm. unfold_monad.
  destruct (posixpath.split target) as [head tail]. simpl in Hhead.
  destruct (refused (fs w) !! target) as [e|].
  { injection Hm as <- <-. subst r. by destruct (stat (fs w) !! target) as [[]|]. }
  destruct (stat (fs w) !! target) as [[]|]; try done;
    try (injection Hm as <- <-; by subst r).
  rewrite Hhead in Hm. injection Hm as <- <-. by destruct Hr0.
Qed.

End CreateDir.

Lemma create_dir_idempotent_witness :
  let w1 := snd (create_dir Demo.abspath (Some "a") Demo.start) in
  create_dir Demo.abspath (Some "a") Demo.start
    = (Returned (Some "/D/a(2)"), w1)
  ∧ create_dir Demo.abspath (Some "a") w1 = (Returned (Some "/D/a(2)"), w1).
Proof.
  intros w1.
  assert (create_dir Demo.abspath (Some "a") Demo.start
          = (Returned (Some "/D/a(2)"), w1)) as H by (vm_compute; reflexivity).
  split; [exact H|].
  exact (create_dir_idempotent Demo.abspath (Some "a") Demo.start _ _ H).
Defined.

Lemma create_dir_beside_file_witness :
  Str.truthy "a" = true ∧
  isfile (fs Demo.start) (Demo.abspath "a") = true ∧
  well_formed (fs Demo.start) = true ∧
  ∃ k r w',
    (1 <= k)%nat ∧
    (∀ j, (1 <= j < k)%nat ->
          isfile (fs Demo.start) (Demo.abspath "a" +:+ suffix j) = true) ∧
    isfile (fs Demo.start) (Demo.abspath "a" +:+ suffix k) = false ∧
    create_dir Demo.abspath (Some "a") Demo.start = (r, w') ∧
    (∀ q, isfile (fs w') q = isfile (fs Demo.start) q) ∧
    match stat (fs Demo.start) !! (Demo.abspath "a" +:+ suffix k),
          refused (fs Demo.start) !! (Demo.abspath "a" +:+ suffix k) with
    | Some Dir, _ =>
        r = Returned (Some (Demo.abspath "a" +:+ suffix k)) ∧ w' = Demo.start
    | None, None =>
        r = Returned (Some (Demo.abspath "a" +:+ suffix k))
        ∧ isdir (fs w') (Demo.abspath "a" +:+ suffix k) = true
    | _, Some e => r = Raised (OSError_of e) ∧ w' = Demo.start
    | Some _, None => r = Raised FileExistsError ∧ w' = Demo.start
    end.
Proof.
  assert (Str.truthy "a" = true) as H1 by reflexivity.
  assert (isfile (fs Demo.start) (Demo.abspath "a") = true) as H2
    by (vm_compute; reflexivity).
  assert (well_formed (fs Demo.start) = true) as H3
    by (vm_compute; reflexivity).
  repeat (split; [assumption|]).
  exact (create_dir_beside_file Demo.abspath "a" Demo.start H1 H2 H3).
Defined.

(** C6, as stated, fails when the first name that is not a regular
    file is taken by something else: with the regular files [a] and
    [a(1)] and a FIFO [a(2)] in [/D], [create_dir] settles on [a(2)],
    [os.makedirs] raises [FileExistsError], and no path is returned;
    [a(3)] is not tried. *)
Lemma create_dir_beside_file_and_fifo :
  Str.truthy "a" = true ∧
  isfile (fs Demo.start_with_fifo) (Demo.abspath "a") = true ∧
  create_dir Demo.abspath (Some "a") Demo.start_with_fifo
    = (Raised FileExistsError, Demo.start_with_fifo) ∧
  ¬ ∃ k w',
      create_dir Demo.abspath (Some "a") Demo.start_with_fifo
      = (Returned (Some (Demo.abspath "a" +:+ suffix k)), w').
Proof.
  assert (create_dir Demo.abspath (Some "a") Demo.start_with_fifo
          = (Raised FileExistsError, Demo.start_with_fifo)) as H
    by (vm_compute; reflexivity).
  split; [reflexivity|]. split; [vm_compute; reflexivity|].
  split; [exact H|]. intros (k & w' & H'). rewrite H in H'. discriminate.
Qed.

(** The suffix the allocator settles on in the demo world is 2. *)
Example create_dir_beside_file_demo :
  fst (create_dir Demo.abspath (Some "a") Demo.start)
  = Returned (Some "/D/a(2)").
Proof. vm_compute. reflexivity. Qed.

(** ** Path expansion *)

(** One level of [search_sub_dir]: the loop over the entries appends the
    visible files and leaves the sub-directories alone. *)
Lemma scan_entries (rec : string -> list string -> M (list string))
    path names files w :
  for_each names (fun entry_name files =>
      let entry_path := posixpath.join path entry_name in
      is_file ← os_path_isfile entry_path;
      is_dir ← os_path_isdir entry_path;
      if negb (Str.startswith "." entry_name) && is_file
      then mret (files ++ [entry_path])
      else if negb (Str.startswith "." entry_name) && is_dir
      then (if false then rec entry_path files else mret files)
      else mret files) files w
  = (Returned (files ++ List.filter (isfile (fs w))
       (map (posixpath.join path)
          (List.filter (fun name => negb (Str.startswith "." name)) names))), w).
Proof.
  revert files. induction names as [|name names IH]; intros files; simpl.
  - by rewrite app_nil_r.
  - unfold os_path_isfile, os_path_isdir, get_fs. unfold_monad.
    destruct (Str.startswith "." name); simpl.
    + apply IH.
    + destruct (isfile (fs w) (posixpath.join path name)); simpl.
      * rewrite IH. by rewrite <- app_assoc.
      * destruct (isdir _ _); apply IH.
Qed.

Lemma search_sub_dir_flat depth path files w :
  isdir (fs w) path = true ->
  search_sub_dir (S depth) false path files w
  = (Returned (files ++ visible_files (fs w) path), w).
Proof.
  intros Hd. apply bool_decide_eq_true in Hd.
  simpl. unfold os_scandir, get_fs. unfold_monad. rewrite Hd.
  unfold visible_files, scandir_names.
  by rewrite <- (scan_entries (search_sub_dir depth false)).
Qed.

Section Expansion.

Variable abspath : string -> string.

Lemma get_file_list_loop_flat path_list files w :
  get_file_list_loop abspath false path_list files w
  = (Returned (if forallb (valid_input abspath (fs w)) path_list
               then Some (files ++ expand abspath (fs w) path_list)
               else None), w).
Proof.
  revert files. induction path_list as [|path path_list IH]; intros files.
  - simpl. by rewrite app_nil_r.
  - cbn [get_file_list_loop forallb expand flat_map].
    unfold valid_input at 1, expand_one.
    unfold os_path_isfile, os_path_isdir, get_fs. unfold_monad.
    destruct (isfile (fs w) (abspath path)) eqn:Ef; cbn [orb andb].
    + rewrite IH. destruct (forallb _ _); [|done]. by rewrite <- app_assoc.
    + destruct (isdir (fs w) (abspath path)) eqn:Ed; cbn [orb andb]; [|done].
      change recursion_limit with (S 999).
      rewrite search_sub_dir_flat by done.
      rewrite IH. destruct (forallb _ _); [|done]. by rewrite <- app_assoc.
Qed.

Lemma get_file_list_Exited path_list w :
  forallb (valid_input abspath (fs w)) path_list = false
  ∨ expand abspath (fs w) path_list = [] ->
  fst (get_file_list abspath path_list false w) = Exited (-2).
Proof.
  intros H. unfold get_file_list. unfold_monad.
  rewrite get_file_list_loop_flat.
  destruct (forallb _ _); [|done]. destruct H as [|H]; [done|].
  simpl. by rewrite H.
Qed.

Lemma get_file_list_Returned path_list w :
  forallb (valid_input abspath (fs w)) path_list = true ->
  expand abspath (fs w) path_list ≠ [] ->
  get_file_list abspath path_list false w
  = (Returned (expand abspath (fs w) path_list), w).
Proof.
  intros Hv Hne. unfold get_file_list. unfold_monad.
  rewrite get_file_list_loop_flat, Hv. simpl.
  destruct (expand abspath (fs w) path_list); done.
Qed.

(** C8: with the default [recursive=False], [get_file_list] returns the
    inputs expanded in the order given: each input is resolved with
    [abspath]; a file contributes itself; a directory contributes its
    direct entries that are files, in the order [os.scandir] yields
    them, without the entries whose name begins with a dot and without
    its sub-directories; nothing is removed as a duplicate or for its
    extension.  It leaves through [sys.exit(-2)] when an input is
    neither a file nor a directory or when the expansion is empty. *)
Theorem get_file_list_expands path_list w :
  fst (get_file_list abspath path_list false w)
  = if forallb (valid_input abspath (fs w)) path_list
    then match expand abspath (fs w) path_list with
         | [] => Exited (-2)
         | files => Returned files
         end
    else Exited (-2).
Proof.
  destruct (forallb _ _) eqn:Hv.
  - destruct (expand abspath (fs w) path_list) as [|file files] eqn:He.
    + apply get_file_list_Exited. by right.
    + rewrite get_file_list_Returned by (done || by rewrite He).
      by rewrite He.
  - apply get_file_list_Exited. by left.
Qed.

(** C10: when every input exists, an input that is a regular file is in
    the list [get_file_list] returns, whatever its name: the test on a
    leading dot is applied to the entries of a scanned directory only. *)
Theorem get_file_list_keeps_named_file path_list path w :
  path ∈ path_list ->
  isfile (fs w) (abspath path) = true ->
  forallb (valid_input abspath (fs w)) path_list = true ->
  ∃ files,
    get_file_list abspath path_list false w = (Returned files, w)
    ∧ abspath path ∈ files.
Proof.
  intros Hin Hf Hv.
  assert (abspath path ∈ expand abspath (fs w) path_list) as Hmem.
  { unfold expand. apply list_elem_of_In, in_flat_map.
    exists path. split; [by apply list_elem_of_In|].
    unfold expand_one. rewrite Hf. by left. }
  exists (expand abspath (fs w) path_list). split; [|done].
  apply get_file_list_Returned; [done|].
  intros E. rewrite E in Hmem. by apply not_elem_of_nil in Hmem.
Qed.

End Expansion.

Lemma get_file_list_keeps_named_file_witness :
  ".hidden.zip" ∈ [".hidden.zip"; "/D/sub"] ∧
  isfile Demo.disk (Demo.abspath ".hidden.zip") = true ∧
  forallb (valid_input Demo.abspath Demo.disk) [".hidden.zip"; "/D/sub"] = true ∧
  ∃ files,
    get_file_list Demo.abspath [".hidden.zip"; "/D/sub"] false Demo.start
      = (Returned files, Demo.start)
    ∧ Demo.abspath ".hidden.zip" ∈ files.
Proof.
  assert (".hidden.zip" ∈ [".hidden.zip"; "/D/sub"]) as H1
    by apply list_elem_of_here.
  assert (isfile Demo.disk (Demo.abspath ".hidden.zip") = true) as H2
    by (vm_compute; reflexivity).
  assert (forallb (valid_input Demo.abspath Demo.disk)
            [".hidden.zip"; "/D/sub"] = true) as H3
    by (vm_compute; reflexivity).
  repeat (split; [assumption|]).
  exact (get_file_list_keeps_named_file Demo.abspath _ _ Demo.start H1 H2 H3).
Defined.

(** A directory with visible files, a hidden file and a sub-directory:
    only the visible files, in the order of the scan; the hidden file
    named as an input is kept. *)
Example get_file_list_demo :
  fst (get_file_list Demo.abspath ["/D"] false Demo.start)
  = Returned ["/D/a.zip"; "/D/b.7z"; "/D/a"; "/D/a(1)"; "/D/7z"]
  ∧ fst (get_file_list Demo.abspath [".hidden.zip"; "a.zip"; "a.zip"] false
           Demo.start)
    = Returned ["/D/.hidden.zip"; "/D/a.zip"; "/D/a.zip"].
Proof. split; vm_compute; reflexivity. Qed.

(** ** The batch *)

Lemma OSError_of_creation_error e : creation_error (OSError_of e) = true.
Proof. by destruct e. Qed.

Section Batch.

Variable abspath : string -> string.
Variable script_file : string.
Variable spawn : list string -> filesystem -> started.

(** [subprocess.run] returns with the child that has ended, raises an
    error of the operating system when the child could not be started,
    or does not return. *)
Lemma subprocess_run_inv cmd w r w' :
  subprocess_run spawn cmd w = (r, w') ->
  match r with
  | Returned rtn =>
      proc_args rtn = cmd ∧
      spawn cmd (fs w)
      = Ended (returncode rtn) (stdout rtn) (stderr rtn) (fs w') ∧
      log w' = log w ∧ children w' = children w ++ [rtn]
  | Raised e => creation_error e = true ∧ w' = w
  | Diverged => w' = w
  | Exited _ => False
  end.
Proof.
  unfold subprocess_run. destruct (spawn cmd (fs w)) as [rc out err f'|e|];
    intros [= <- <-]; [done| |done].
  split; [apply OSError_of_creation_error|done].
Qed.

(** How one round of the loop ends.  Either no child runs, because the
    creation of the directory or the start of the child raises, or the
    child that was started never ends; or one child runs for the file of
    the round, and then: when its exit code is one of the six listed, the
    round returns, its last log line is the [CMDSTATUS] line at the level
    and with the description [classify] gives, and the archive is counted
    as a failure unless [classify] gives success; when the exit code is
    not listed, the round raises [KeyError]. *)
Lemma main_step_outcome args exe_path files work_dir i statistics w
    total failure file r w' :
  statistics !! "total" = Some total ->
  statistics !! "failure" = Some failure ->
  files !! i = Some file ->
  main_step abspath spawn args exe_path files work_dir i statistics w = (r, w') ->
  (children w' = children w
   ∧ (r = Diverged ∨ ∃ e, r = Raised e ∧ creation_error e = true))
  ∨ ∃ rtn, children w' = children w ++ [rtn] ∧ archive_of rtn = Some file ∧
      if bool_decide (In (returncode rtn) known_codes)
      then ∃ statistics' level description success,
             r = Returned statistics'
           ∧ classify (returncode rtn) = Returned (level, description, success)
           ∧ last (log w')
             = Some {| levelno := level;
                       message := tag "CMDSTATUS" +:+ pretty (returncode rtn)
                                  +:+ "," +:+ description |}
           ∧ statistics' !! "total" = Some total
           ∧ statistics' !! "failure"
             = Some (failure + if success then 0 else 1)
      else r = Raised KeyError.
Proof.
  intros Ht Hf Hfile. unfold main_step.
  rewrite (bind_step _ _ _ _ _ (getitem_Some _ _ _ w Ht)).
  unfold logger_info, logger_debug. rewrite bind_logger_log.
  set (w1 := snd (logger_log _ _ w)).
  assert (children w1 = children w) as Hc1 by apply logger_log_children.
  unfold list_getitem. rewrite Hfile.
  rewrite (bind_step _ _ _ file w1) by done.
  destruct (posixpath.splitext _) as [name ext].
  set (dir := Some (posixpath.join _ name)).
  pose proof (create_dir_result abspath dir w1) as Hres.
  destruct (create_dir abspath dir w1) as [rd w2] eqn:Ed.
  pose proof (create_dir_grows _ _ _ _ _ Ed) as (_ & Hc2 & _).
  simpl in Hres.
  destruct rd as [separate_dir|e|n|]; try done.
  2: { unfold mbind, M_bind at 1. rewrite Ed. intros [= <- <-].
       left. split; [congruence|eauto]. }
  rewrite (bind_step _ _ _ _ _ Ed). unfold seven_zip.
  destruct (subprocess_run spawn
              (seven_zip_cmd exe_path file separate_dir (password args)
                 (codepage args)) w2) as [rr w3] eqn:E.
  pose proof (subprocess_run_inv _ _ _ _ E) as Hrun.
  destruct rr as [rtn|e|n|]; try done.
  2: { destruct Hrun as [He ->]. unfold mbind, M_bind at 1. rewrite E.
       intros [= <- <-]. left. split; [congruence|eauto]. }
  2: { subst w3. unfold mbind, M_bind at 1. rewrite E.
       intros [= <- <-]. left. split; [congruence|by left]. }
  destruct Hrun as (Hargs & _ & _ & Hc3).
  rewrite (bind_step _ _ _ _ _ E).
  assert (∃ statistics1,
    (if negb (returncode rtn =? 0)
     then failure0 ← getitem statistics "failure";
          mret (<["failure" := failure0 + 1]> statistics)
     else mret statistics) w3 = (Returned statistics1, w3)
    ∧ statistics1 !! "total" = Some total
    ∧ statistics1 !! "failure"
      = Some (failure + if returncode rtn =? 0 then 0 else 1))
    as (statistics1 & E1 & Ht1 & Hf1).
  { destruct (returncode rtn =? 0); simpl.
    - exists statistics. by rewrite Z.add_0_r.
    - eexists. rewrite (bind_step _ _ _ _ _ (getitem_Some _ _ _ w3 Hf)).
      split; [reflexivity|].
      by rewrite lookup_insert_eq, lookup_insert_ne. }
  rewrite (bind_step _ _ _ _ _ E1).
  rewrite !bind_logger_log.
  set (w4 := snd (logger_log logging.INFO _ _)).
  assert (children w4 = children w ++ [rtn]) as Hc4.
  { unfold w4. rewrite !logger_log_children. simpl. congruence. }
  intros H. unfold getitem in H. rewrite return_code_table_lookup in H.
  right. exists rtn.
  assert (archive_of rtn = Some file) as Ha.
  { unfold archive_of. rewrite Hargs. apply seven_zip_cmd_last. }
  case_bool_decide; cbv beta iota in H;
    unfold mbind, M_bind, mret, M_ret, raise in H; cbv beta iota in H.
  - rewrite logger_log_emits in H by apply getSeverity_ge_INFO.
    injection H as <- <-. split; [done|]. split; [done|].
    eexists _, _, _, _. split; [reflexivity|]. split.
    { unfold classify. rewrite return_code_table_lookup.
      by rewrite bool_decide_eq_true_2. }
    split; [cbn [log]; by rewrite last_snoc|]. done.
  - injection H as <- <-. done.
Qed.

Lemma main_loop_outcome args exe_path files work_dir n i statistics w
    total failure r w' :
  statistics !! "total" = Some total ->
  statistics !! "failure" = Some failure ->
  (i + n <= length files)%nat ->
  for_each (seq i n) (main_step abspath spawn args exe_path files work_dir)
    statistics w = (r, w') ->
  ∃ procs,
    children w' = children w ++ procs ∧
    archive_of <$> procs = Some <$> take (length procs) (drop i files) ∧
    batch_result n total failure procs r.
Proof.
  revert i statistics w failure r w'.
  induction n as [|n IH]; intros i statistics w failure r w' Ht Hf Hlen H.
  - injection H as <- <-. exists []. rewrite app_nil_r.
    split; [done|]. split; [done|]. simpl.
    split; [done|]. split; [done|]. split; [done|]. by rewrite Z.add_0_r.
  - cbn [seq] in H. rewrite for_each_cons in H.
    destruct (lookup_lt_is_Some_2 files i ltac:(lia)) as [file Hfile].
    destruct (main_step abspath spawn args exe_path files work_dir i
                statistics w) as [r1 w1] eqn:E1.
    destruct (main_step_outcome _ _ _ _ _ _ _ _ _ _ _ _ Ht Hf Hfile E1)
      as [[Hc [->|(e & -> & He)]]|(rtn & Hc & Ha & Hr)].
    + unfold mbind, M_bind in H. rewrite E1 in H. injection H as <- <-.
      exists []. rewrite app_nil_r. split; [done|]. split; [done|].
      simpl. split; [done|]. apply Nat.lt_0_succ.
    + unfold mbind, M_bind in H. rewrite E1 in H. injection H as <- <-.
      exists []. rewrite app_nil_r. split; [done|]. split; [done|].
      simpl. rewrite He. split; [done|]. apply Nat.lt_0_succ.
    + case_bool_decide as Hk.
      * destruct Hr as (statistics1 & level & description & success & ->
                        & Hcl & _ & Ht1 & Hf1).
        apply classify_success in Hcl. subst success.
        rewrite (bind_step _ _ _ _ _ E1) in H.
        assert (S i + n <= length files)%nat as Hlen' by lia.
        destruct (IH _ _ _ _ _ _ Ht1 Hf1 Hlen' H) as (procs & Hc' & Ha' & Hb).
        exists (rtn :: procs). split; [|split].
        -- rewrite Hc', Hc. by rewrite <- app_assoc.
        -- simpl. rewrite (drop_S _ _ _ Hfile). cbn [take].
           rewrite !fmap_cons, Ha. f_equal. exact Ha'.
        -- unfold batch_result in *. destruct r as [statistics'|e|n'|]; try done.
           ++ destruct Hb as (Hl & Hall & Ht' & Hf'). simpl.
              split; [by rewrite Hl|]. split; [by constructor|].
              split; [done|]. rewrite Hf'. f_equal. unfold failures. simpl.
              destruct (returncode rtn =? 0); simpl; lia.
           ++ destruct (creation_error e).
              ** destruct Hb as [Hall Hl]. split; [by constructor|]. simpl. lia.
              ** destruct Hb as (-> & procs0 & p & -> & Hall & Hp).
                 split; [done|]. exists (rtn :: procs0), p.
                 split; [done|]. split; [by constructor|done].
           ++ destruct Hb as [Hall Hl]. split; [by constructor|]. simpl. lia.
      * subst r1. unfold mbind, M_bind in H. rewrite E1 in H.
        injection H as <- <-. exists [rtn]. split; [done|]. split.
        -- simpl. rewrite (drop_S _ _ _ Hfile). cbn [take].
           by rewrite !fmap_cons, Ha.
        -- simpl. split; [done|]. exists [], rtn. done.
Qed.

(** How the loop of [main] ends. *)
Theorem main_statistics_outcome args exe_path files work_dir w r w' :
  main_statistics abspath script_file spawn args exe_path files work_dir w
    = (r, w') ->
  ∃ procs,
    children w' = children w ++ procs ∧
    archive_of <$> procs = Some <$> take (length procs) files ∧
    batch_result (length files) (Z.of_nat (length files)) 0 procs r.
Proof.
  unfold main_statistics. unfold logger_info. rewrite bind_logger_log.
  set (w1 := snd (logger_log _ _ w)).
  assert (children w1 = children w) as Hc1 by apply logger_log_children.
  set (statistics := <["total" := Z.of_nat (length files)]> _).
  assert (statistics !! "total" = Some (Z.of_nat (length files))) as Ht
    by apply lookup_insert_eq.
  assert (statistics !! "failure" = Some 0) as Hf by done.
  rewrite (bind_step _ _ _ _ _ (getitem_Some _ _ _ w1 Ht)).
  rewrite Nat2Z.id. intros H.
  apply (main_loop_outcome _ _ _ _ _ _ _ _ _ _ _ _ Ht Hf) in H
    as (procs & Hc & Ha & Hb); [|lia].
  exists procs. rewrite Hc, Hc1. by rewrite drop_0 in Ha.
Qed.

(** The counts are right whenever there are counts: when the loop of
    [main] over [files] has come to its end, it has run one child per
    file, in the order of [files]; [statistics["total"]] is the number
    of files and [statistics["failure"]] the number of those children
    whose exit code is not 0.  By [main_statistics_outcome] the loop
    comes to its end only when every exit code is one of the six of
    [return_code_table]. *)
Lemma main_statistics_counts args exe_path files work_dir w statistics w' :
  main_statistics abspath script_file spawn args exe_path files work_dir w
    = (Returned statistics, w') ->
  ∃ procs,
    children w' = children w ++ procs ∧
    archive_of <$> procs = Some <$> files ∧
    statistics !! "total" = Some (Z.of_nat (length files)) ∧
    statistics !! "failure" = Some (Z.of_nat (failures procs)).
Proof.
  intros H.
  apply main_statistics_outcome in H as (procs & Hc & Ha & Hb).
  destruct Hb as (Hl & _ & Ht & Hf).
  exists procs. split; [done|]. split; [|done].
  by rewrite Hl, firstn_all in Ha.
Qed.

(** The loop comes to its end only when every child has ended with one
    of the six exit codes of [return_code_table]: as soon as a child
    ends with another exit code, the loop raises [KeyError]. *)
Lemma main_statistics_unlisted_code args exe_path files work_dir w r w' procs :
  main_statistics abspath script_file spawn args exe_path files work_dir w
    = (r, w') ->
  children w' = children w ++ procs ->
  Exists (fun p => ¬ listed p) procs ->
  r = Raised KeyError.
Proof.
  intros H Hc Hex.
  apply main_statistics_outcome in H as (procs' & Hc' & _ & Hb).
  rewrite Hc' in Hc. apply (inj (app (children w))) in Hc. subst procs'.
  unfold batch_result in Hb. destruct r as [statistics|e|n|]; try done.
  - destruct Hb as (_ & Hall & _).
    apply Exists_exists in Hex as (p & Hp & Hnot).
    rewrite Forall_forall in Hall. by destruct Hnot; apply Hall.
  - destruct (creation_error e).
    + destruct Hb as [Hall _].
      apply Exists_exists in Hex as (p & Hp & Hnot).
      rewrite Forall_forall in Hall. by destruct Hnot; apply Hall.
    + by destruct Hb as [-> _].
  - destruct Hb as [Hall _].
    apply Exists_exists in Hex as (p & Hp & Hnot).
    rewrite Forall_forall in Hall. by destruct Hnot; apply Hall.
Qed.

Lemma check_argument_Returned argv w :
  isfile (fs w) (abspath (exe argv)) = true ->
  executable_name argv ∈ main_executables ->
  check_argument abspath argv w = (Returned argv, w).
Proof.
  intros Hf Hn. unfold check_argument, os_path_isfile, get_fs.
  unfold_monad. rewrite Hf. simpl.
  unfold executable_name in Hn.
  destruct (posixpath.splitext _) as [name ext]. simpl in Hn.
  by rewrite bool_decide_eq_true_2.
Qed.

Lemma check_argument_Exited argv w :
  isfile (fs w) (abspath (exe argv)) = false
  ∨ executable_name argv ∉ main_executables ->
  fst (check_argument abspath argv w) = Exited (-2).
Proof.
  intros H. unfold check_argument, os_path_isfile, get_fs.
  unfold_monad. destruct (isfile (fs w) (abspath (exe argv))); simpl; [|done].
  destruct H as [|Hn]; [done|]. unfold executable_name in Hn.
  destruct (posixpath.splitext _) as [name ext]. simpl in Hn.
  by rewrite bool_decide_eq_false_2.
Qed.

Lemma check_argument_inv argv w args w1 :
  check_argument abspath argv w = (Returned args, w1) -> args = argv ∧ w1 = w.
Proof.
  destruct (isfile (fs w) (abspath (exe argv))) eqn:Hf.
  - destruct (decide (executable_name argv ∈ main_executables)) as [Hn|Hn].
    + rewrite (check_argument_Returned _ _ Hf Hn). by intros [= <- <-].
    + intros H. pose proof (check_argument_Exited argv w (or_intror Hn)) as E.
      rewrite H in E. done.
  - intros H. pose proof (check_argument_Exited argv w (or_introl Hf)) as E.
    rewrite H in E. done.
Qed.

Lemma get_file_list_inv path_list w files w1 :
  get_file_list abspath path_list false w = (Returned files, w1) ->
  files = expand abspath (fs w) path_list ∧ w1 = w.
Proof.
  intros H.
  destruct (forallb (valid_input abspath (fs w)) path_list) eqn:Hv.
  - destruct (expand abspath (fs w) path_list) as [|file files'] eqn:He.
    + pose proof (get_file_list_Exited abspath path_list w (or_intror He)) as E.
      by rewrite H in E.
    + rewrite get_file_list_Returned in H by (done || by rewrite He).
      rewrite He in H. by injection H as <- <-.
  - pose proof (get_file_list_Exited abspath path_list w (or_introl Hv)) as E.
    by rewrite H in E.
Qed.

(** When [main] returns, it returns 0 and the two last lines it has
    logged are the [RESULT] line, with the number of files, the number
    of files less the failures, and the number of failures, and the [END]
    line. *)
Lemma main_result_line argv w v w' :
  main abspath script_file spawn argv w = (Returned v, w') ->
  ∃ procs lines,
    let files := expand abspath (fs w) (input argv) in
    let total := Z.of_nat (length files) in
    let failure := Z.of_nat (failures procs) in
    v = 0 ∧
    children w' = children w ++ procs ∧
    archive_of <$> procs = Some <$> files ∧
    log w' = lines ++
      [ {| levelno := logging.INFO;
           message := tag "RESULT" +:+ "TOTAL:" +:+ fmt_center5 total
                      +:+ ",SUCCESS:" +:+ fmt_center5 (total - failure)
                      +:+ ",FAILURE:" +:+ fmt_center5 failure |};
        {| levelno := logging.INFO; message := tag "END" +:+ script_file |} ].
Proof.
  unfold main. intros H.
  apply bind_Returned in H as (args & w1 & H1 & H).
  apply check_argument_inv in H1 as [-> ->].
  apply bind_Returned in H as (files & w2 & H2 & H).
  apply get_file_list_inv in H2 as [-> ->].
  apply bind_Returned in H as (work_dir & w3 & H3 & H).
  apply create_dir_grows in H3 as (_ & Hc3 & _).
  apply bind_Returned in H as (statistics & w4 & H4 & H).
  apply main_statistics_outcome in H4 as (procs & Hc4 & Ha & Hl & _ & Ht & Hf).
  rewrite Hl, firstn_all in Ha.
  rewrite (bind_step _ _ _ _ _ (getitem_Some _ _ _ _ Ht)) in H.
  rewrite (bind_step _ _ _ _ _ (getitem_Some _ _ _ _ Hf)) in H.
  unfold logger_info in H. rewrite !bind_logger_log in H.
  injection H as <- <-.
  exists procs, (log w4). simpl. rewrite Z.add_0_l.
  split; [done|]. split; [congruence|]. split; [done|].
  by rewrite <- app_assoc.
Qed.
(** C9: the script ends with status -2 when the executable is not a
    file or does not bear one of the accepted names, when an input is
    neither a file nor a directory, and when the inputs expand to no
    file; it ends with status 0 whenever the checks have passed and the
    loop over the files has come to its end, whatever [statistics]
    holds. *)
Theorem exit_status_rule argv w :
  (isfile (fs w) (abspath (exe argv)) = false
   ∨ executable_name argv ∉ main_executables
   ∨ forallb (valid_input abspath (fs w)) (input argv) = false
   ∨ expand abspath (fs w) (input argv) = [] ->
   exit_status abspath script_file spawn argv w = Some (-2))
  ∧
  (∀ args w1 files w2 work_dir w3 statistics w4,
     check_argument abspath argv w = (Returned args, w1) ->
     get_file_list abspath (input args) false w1 = (Returned files, w2) ->
     create_dir abspath (output args) w2 = (Returned work_dir, w3) ->
     main_statistics abspath script_file spawn args (abspath (exe args))
       files work_dir w3 = (Returned statistics, w4) ->
     exit_status abspath script_file spawn argv w = Some 0).
Proof.
  split.
  - intros H. unfold exit_status, main.
    destruct (isfile (fs w) (abspath (exe argv))) eqn:Hf;
      [|by rewrite (bind_Exited _ _ _ (-2))
            by (apply check_argument_Exited; by left)].
    destruct (decide (executable_name argv ∈ main_executables)) as [Hn|Hn];
      [|by rewrite (bind_Exited _ _ _ (-2))
            by (apply check_argument_Exited; by right)].
    rewrite (bind_step _ _ _ _ _ (check_argument_Returned _ _ Hf Hn)).
    rewrite (bind_Exited _ _ _ (-2)); [done|].
    apply get_file_list_Exited.
    destruct H as [H|[H|[H|H]]]; [congruence|done|by left|by right].
  - intros args w1 files w2 work_dir w3 statistics w4 H1 H2 H3 H4.
    unfold exit_status, main.
    rewrite (bind_step _ _ _ _ _ H1), (bind_step _ _ _ _ _ H2),
      (bind_step _ _ _ _ _ H3), (bind_step _ _ _ _ _ H4).
    destruct (main_statistics_outcome _ _ _ _ _ _ _ H4)
      as (procs & _ & _ & _ & _ & Ht & Hf).
    rewrite (bind_step _ _ _ _ _ (getitem_Some _ _ _ _ Ht)),
      (bind_step _ _ _ _ _ (getitem_Some _ _ _ _ Hf)).
    destruct (logger_log_Returned logging.INFO
      (tag "RESULT" +:+ "TOTAL:" +:+ fmt_center5 (Z.of_nat (length files))
       +:+ ",SUCCESS:"
       +:+ fmt_center5 (Z.of_nat (length files) - Z.of_nat (failures procs))
       +:+ ",FAILURE:" +:+ fmt_center5 (Z.of_nat (failures procs))) w4)
      as [w5 H5].
    unfold logger_info. rewrite (bind_step _ _ _ _ _ H5).
    destruct (logger_log_Returned logging.INFO (tag "END" +:+ script_file) w5)
      as [w6 H6].
    rewrite (bind_step _ _ _ _ _ H6). done.
Qed.

End Batch.

Lemma main_statistics_counts_witness :
  let files := ["/D/a.zip"; "/D/b.7z"] in
  let run := main_statistics Demo.abspath Demo.script_file
               (Demo.spawn Demo.code_fatal) Demo.argv "/D/7z" files None
               Demo.start in
  let statistics : gmap string Z := <["failure" := 1]> (<["total" := 2]> ∅) in
  run = (Returned statistics, snd run) ∧
  ∃ procs,
    children (snd run) = children Demo.start ++ procs ∧
    archive_of <$> procs = Some <$> files ∧
    statistics !! "total" = Some (Z.of_nat (length files)) ∧
    statistics !! "failure" = Some (Z.of_nat (failures procs)).
Proof.
  intros files run statistics.
  assert (run = (Returned statistics, snd run)) as H
    by (vm_compute; reflexivity).
  split; [exact H|].
  exact (main_statistics_counts Demo.abspath Demo.script_file
           (Demo.spawn Demo.code_fatal) Demo.argv "/D/7z" files None
           Demo.start statistics (snd run) H).
Defined.

Lemma exit_status_rule_witness :
  let no_exe := {| codepage := None; input := ["a.zip"]; output := None;
                   password := None; exe := "/D/8z" |} in
  exit_status Demo.abspath Demo.script_file (Demo.spawn Demo.code_fatal)
    no_exe Demo.start = Some (-2)
  ∧ exit_status Demo.abspath Demo.script_file (Demo.spawn Demo.code_fatal)
      Demo.argv Demo.start = Some 0.
Proof.
  intros no_exe. split.
  - apply (proj1 (exit_status_rule Demo.abspath Demo.script_file
                    (Demo.spawn Demo.code_fatal) no_exe Demo.start)).
    left. vm_compute. reflexivity.
  - apply (proj2 (exit_status_rule Demo.abspath Demo.script_file
                    (Demo.spawn Demo.code_fatal) Demo.argv Demo.start)
             Demo.argv Demo.start ["/D/a.zip"; "/D/b.7z"] Demo.start
             None Demo.start
             (<["failure" := 1]> (<["total" := 2]> ∅))
             (snd (main_statistics Demo.abspath Demo.script_file
                     (Demo.spawn Demo.code_fatal) Demo.argv
                     (Demo.abspath (exe Demo.argv))
                     ["/D/a.zip"; "/D/b.7z"] None Demo.start)));
      vm_compute; reflexivity.
Defined.

(** C1 at work: [a.zip] extracts and 7-Zip crashes on [b.7z], which
    gives the exit code -11.  Both children have run and the failure of
    [b.7z] has been counted, but the look-up of the description of -11
    raises [KeyError]: the loop does not hand back its statistics, and
    [main] ends without the [CMDSTATUS] line of [b.7z] and without the
    [RESULT] line, so that the counts, total 2 and failure 1, are
    reported nowhere. *)
Theorem unlisted_exit_code_loses_statistics :
  let files := ["/D/a.zip"; "/D/b.7z"] in
  let loop := main_statistics Demo.abspath Demo.script_file
                (Demo.spawn Demo.code_crashed) Demo.argv "/D/7z" files None
                Demo.start in
  let run := main Demo.abspath Demo.script_file
               (Demo.spawn Demo.code_crashed) Demo.argv Demo.start in
  fst loop = Raised KeyError
  ∧ archive_of <$> children (snd loop) = Some <$> files
  ∧ returncode <$> children (snd loop) = [0; -11]
  ∧ fst run = Raised KeyError
  ∧ message <$> log (snd run)
    = [ "[START    ] /opt/d7.py";
        "[IDX/TOTAL] 00001/00002";
        "[IN_FILE  ] /D/a.zip";
        "[OUT_DIR  ] /D/a(2)";
        "[CMDSTATUS] 0,No error";
        "[IDX/TOTAL] 00002/00002";
        "[IN_FILE  ] /D/b.7z";
        "[OUT_DIR  ] /D/b" ].
Proof. vm_compute. repeat split; reflexivity. Qed.

(** C2 at work: the child for [a.zip] ends with exit code -9, which
    [return_code_table] has no row for.  The failure is counted, then
    the look-up of the description raises [KeyError]: no [CMDSTATUS] line
    is logged for [a.zip], [b.7z] is never handed to 7-Zip, no [RESULT]
    line is logged and the script ends with status 1. *)
Theorem unlisted_exit_code_stops_batch :
  let run := main Demo.abspath Demo.script_file
               (Demo.spawn Demo.code_killed) Demo.argv Demo.start in
  fst run = Raised KeyError
  ∧ archive_of <$> children (snd run) = [Some "/D/a.zip"]
  ∧ returncode <$> children (snd run) = [-9]
  ∧ message <$> log (snd run)
    = [ "[START    ] /opt/d7.py";
        "[IDX/TOTAL] 00001/00002";
        "[IN_FILE  ] /D/a.zip";
        "[OUT_DIR  ] /D/a(2)" ]
  ∧ exit_status Demo.abspath Demo.script_file
      (Demo.spawn Demo.code_killed) Demo.argv Demo.start = Some 1.
Proof. vm_compute. repeat split; reflexivity. Qed.

(** The same inputs with a listed failure: the batch goes on after the
    fatal error of [b.7z] is counted and logged. *)
Example listed_exit_code_is_counted :
  let run := main Demo.abspath Demo.script_file
               (Demo.spawn Demo.code_fatal) Demo.argv Demo.start in
  fst run = Returned 0
  ∧ returncode <$> children (snd run) = [0; 2]
  ∧ last (message <$> log (snd run)) = Some "[END      ] /opt/d7.py"
  ∧ isdir (fs (snd run)) "/D/a(2)" = true
  ∧ isdir (fs (snd run)) "/D/b" = true.
Proof. vm_compute. repeat split; reflexivity. Qed.

(** * Further properties *)

(** ** [create_dir] and [os.makedirs] *)

Lemma os_mkdir_parent name w w' :
  os_mkdir name w = (Returned tt, w') ->
  stat (fs w) !! name = None
  ∧ stat (fs w') !! (posixpath.dirname name) = Some Dir.
Proof.
  unfold os_mkdir, get_fs, put_fs, raise, posixpath.dirname. unfold_monad.
  destruct (posixpath.split name) as [head tail] eqn:Es.
  destruct (refused (fs w) !! name) as [e|]; [done|].
  destruct (stat (fs w) !! name) as [k|] eqn:En; [done|].
  destruct (stat (fs w) !! head) as [[| | |]|] eqn:Eh; try done.
  intros [= <-]. split; [done|]. simpl.
  destruct (decide (name = head)) as [->|Hne].
  - by rewrite lookup_insert_eq.
  - by rewrite lookup_insert_ne.
Qed.

(** [os.makedirs] returns only through the [os.mkdir] of the leaf. *)
Lemma makedirs_at_mkdir depth name w w' :
  makedirs_at depth name w = (Returned tt, w') ->
  ∃ w1, grows w w1 ∧ os_mkdir name w1 = (Returned tt, w').
Proof.
  destruct depth as [|depth]; simpl;
    unfold os_path_exists, get_fs, raise, try_pass; unfold_monad;
    destruct (posixpath.split name) as [head tail];
    match goal with
    | |- context [let '(_, _) := ?p in _] => destruct p as [head' tail']
    end;
    match goal with
    | |- context [if ?b then _ else _] => destruct b
    end; try done; try (intros H; exists w; split; [apply grows_refl|done]).
  destruct (makedirs_at depth head' w) as [[[]|e|n|] w1] eqn:E;
    try done; apply makedirs_at_inv in E as [Hg _].
  - intros H. by exists w1.
  - destruct (decide (e = FileExistsError)); [|done]. intros H. by exists w1.
Qed.

Section CreateDirMore.

Variable abspath : string -> string.


(** X2: [create_dir] always comes to an end, on every file system: the
    search [for i in itertools.count(1)] for a free suffix stops, since
    the suffixed names are all different and the file system holds
    finitely many regular files; the call then returns or raises, and it
    never ends the process. *)
Theorem create_dir_ends dir_path w :
  match fst (create_dir abspath dir_path w) with
  | Returned _ | Raised _ => True
  | Exited _ | Diverged => False
  end.
Proof.
  pose proof (create_dir_result abspath dir_path w) as H.
  by destruct (fst (create_dir abspath dir_path w)).
Qed.

(** X3: when the resolved path is not a regular file, no suffix is
    added: a call that returns gives the resolved path itself, and when
    that path is already a directory the call returns it and leaves the
    world as it is. *)
Theorem create_dir_without_suffix p w :
  Str.truthy p = true ->
  isfile (fs w) (abspath p) = false ->
  (isdir (fs w) (abspath p) = true ->
   create_dir abspath (Some p) w = (Returned (Some (abspath p)), w))
  ∧ (∀ d w', create_dir abspath (Some p) w = (Returned d, w') ->
             d = Some (abspath p)).
Proof.
  intros Ht Hf.
  assert (∀ r w', create_dir abspath (Some p) w = (r, w') ->
            if isdir (fs w) (abspath p)
            then r = Returned (Some (abspath p)) ∧ w' = w
            else ∀ d, r = Returned d -> d = Some (abspath p)) as H.
  { intros r w' E.
    destruct (create_dir_inv abspath (Some p) _ _ _ Ht E)
      as (target & Hch & _ & Hres).
    simpl in Hch. destruct Hch as [[_ ->]|[Hf' _]]; [|congruence].
    destruct (isdir (fs w) (abspath p)); [done|].
    destruct Hres as (r0 & _ & Hr0). intros d ->.
    destruct r0; try done. by destruct Hr0 as [[= ->] _]. }
  split.
  - intros Hd. destruct (create_dir abspath (Some p) w) as [r w'] eqn:E.
    specialize (H _ _ eq_refl). rewrite Hd in H. by destruct H as [-> ->].
  - intros d w' E. specialize (H _ _ E).
    destruct (isdir (fs w) (abspath p)).
    + destruct H as [[= ->] _]. done.
    + by apply H.
Qed.

(** What [create_dir] hands back. *)
Lemma create_dir_Returned dir_path w r w' :
  create_dir abspath dir_path w = (Returned r, w') ->
  match r with
  | Some d => truthy dir_path = true ∧ isdir (fs w') d = true
              ∧ isfile (fs w') d = false
  | None => truthy dir_path = false ∧ w' = w
  end.
Proof.
  intros E. destruct (truthy dir_path) eqn:Ht.
  - destruct (create_dir_inv abspath _ _ _ _ Ht E) as (target & _ & _ & Hres).
    assert (r = Some target ∧ isdir (fs w') target = true) as [-> Hd].
    { destruct (isdir (fs w) target) eqn:Ed.
      - destruct Hres as [[= ->] ->]. done.
      - destruct Hres as (r0 & _ & Hr0). destruct r0; try done.
        by destruct Hr0 as [[= ->] ?]. }
    split; [done|]. split; [done|].
    unfold isdir, isfile in *. apply bool_decide_eq_true in Hd.
    apply bool_decide_eq_false. congruence.
  - rewrite create_dir_falsy in E by done. by injection E as <- <-.
Qed.

(** X4: what [create_dir] returns is [None] exactly when the path it is
    given is [None] or empty, and then nothing has changed; otherwise
    it is a path that is a directory, and not a regular file, when the
    call returns. *)
Theorem create_dir_returns_directory dir_path w r w' :
  create_dir abspath dir_path w = (Returned r, w') ->
  match r with
  | Some d => truthy dir_path = true ∧ isdir (fs w') d = true
              ∧ isfile (fs w') d = false
  | None => truthy dir_path = false ∧ w' = w
  end.
Proof. apply create_dir_Returned. Qed.

(** X5: when [create_dir] returns a directory that was not one before,
    nothing existed at that path, and the directory above it exists
    when the call returns: the missing parents have been made. *)
Theorem create_dir_makes_parent dir_path w d w' :
  create_dir abspath dir_path w = (Returned (Some d), w') ->
  isdir (fs w) d = false ->
  stat (fs w) !! d = None
  ∧ isdir (fs w') (posixpath.dirname d) = true.
Proof.
  intros E Hd. destruct (truthy dir_path) eqn:Ht.
  2: { rewrite create_dir_falsy in E by done. done. }
  destruct (create_dir_inv abspath _ _ _ _ Ht E) as (target & _ & _ & Hres).
  destruct (isdir (fs w) target) eqn:Ed.
  { destruct Hres as [[= <-] _]. congruence. }
  destruct Hres as (r0 & Hm & Hr0). destruct r0 as [[]|e|n|]; try done.
  destruct Hr0 as [[= <-] _].
  apply makedirs_at_mkdir in Hm as (w1 & Hg & Hm).
  apply os_mkdir_parent in Hm as [Hn Hp].
  split.
  - destruct Hg as (_ & _ & Hg). destruct (Hg d) as [E1|[E1 _]]; congruence.
  - unfold isdir. by apply bool_decide_eq_true.
Qed.

End CreateDirMore.

Lemma create_dir_without_suffix_witness :
  Str.truthy "sub" = true ∧
  isfile (fs Demo.start) (Demo.abspath "sub") = false ∧
  (isdir (fs Demo.start) (Demo.abspath "sub") = true ->
   create_dir Demo.abspath (Some "sub") Demo.start
   = (Returned (Some (Demo.abspath "sub")), Demo.start))
  ∧ (∀ d w', create_dir Demo.abspath (Some "sub") Demo.start = (Returned d, w') ->
             d = Some (Demo.abspath "sub")).
Proof.
  assert (Str.truthy "sub" = true) as H1 by reflexivity.
  assert (isfile (fs Demo.start) (Demo.abspath "sub") = false) as H2
    by (vm_compute; reflexivity).
  repeat (split; [assumption|]).
  exact (create_dir_without_suffix Demo.abspath "sub" Demo.start H1 H2).
Defined.

Lemma create_dir_returns_directory_witness :
  let w' := snd (create_dir Demo.abspath (Some "new") Demo.start) in
  create_dir Demo.abspath (Some "new") Demo.start = (Returned (Some "/D/new"), w')
  ∧ truthy (Some "new") = true ∧ isdir (fs w') "/D/new" = true
  ∧ isfile (fs w') "/D/new" = false.
Proof.
  intros w'.
  assert (create_dir Demo.abspath (Some "new") Demo.start
          = (Returned (Some "/D/new"), w')) as H by (vm_compute; reflexivity).
  split; [exact H|].
  exact (create_dir_returns_directory Demo.abspath (Some "new") Demo.start
           (Some "/D/new") w' H).
Defined.

Lemma create_dir_makes_parent_witness :
  let w' := snd (create_dir Demo.abspath (Some "x/y") Demo.start) in
  create_dir Demo.abspath (Some "x/y") Demo.start = (Returned (Some "/D/x/y"), w')
  ∧ isdir (fs Demo.start) "/D/x/y" = false
  ∧ stat (fs Demo.start) !! "/D/x/y" = None
  ∧ isdir (fs w') (posixpath.dirname "/D/x/y") = true.
Proof.
  intros w'.
  assert (create_dir Demo.abspath (Some "x/y") Demo.start
          = (Returned (Some "/D/x/y"), w')) as H1 by (vm_compute; reflexivity).
  assert (isdir (fs Demo.start) "/D/x/y" = false) as H2
    by (vm_compute; reflexivity).
  repeat (split; [assumption|]).
  exact (create_dir_makes_parent Demo.abspath (Some "x/y") Demo.start
           "/D/x/y" w' H1 H2).
Defined.

(** ** [search_sub_dir] and [get_file_list] with either flag *)

Lemma scan_result_trans f files extra r :
  Forall (fun file => isfile f file = true) extra ->
  scan_result f (files ++ extra) r -> scan_result f files r.
Proof.
  intros He. destruct r as [files'|e|n|]; simpl; try done.
  intros (extra' & -> & He'). exists (extra ++ extra').
  split; [by rewrite app_assoc|]. by apply Forall_app.
Qed.

(** A scan reads the file system and changes nothing. *)
Lemma search_sub_dir_scan depth recursive path files w r w' :
  search_sub_dir depth recursive path files w = (r, w') ->
  w' = w ∧ scan_result (fs w) files r.
Proof.
  revert path files r w'.
  induction depth as [|depth IH]; intros path files r w'.
  - simpl. by intros [= <- <-].
  - simpl. unfold os_scandir, get_fs, raise. unfold_monad.
    destruct (stat (fs w) !! path) as [[| | |]|]; simpl;
      try (by intros [= <- <-]).
    generalize (default [] (listing (fs w) !! path)). intros names.
    revert files r w'.
    induction names as [|name names IHn]; intros files r w'.
    + simpl. intros [= <- <-]. split; [done|]. exists []. by rewrite app_nil_r.
    + rewrite for_each_cons. unfold os_path_isfile, os_path_isdir, get_fs.
      unfold_monad.
      destruct (Str.startswith "." name); simpl; [apply IHn|].
      destruct (isfile (fs w) (posixpath.join path name)) eqn:Ef; simpl.
      { intros H. apply IHn in H as [-> H]. split; [done|].
        eapply scan_result_trans; [|exact H]. by repeat constructor. }
      destruct (isdir (fs w) (posixpath.join path name)); simpl; [|apply IHn].
      destruct recursive; [|apply IHn].
      destruct (search_sub_dir depth true (posixpath.join path name) files w)
        as [r1 w1] eqn:E1.
      apply IH in E1 as [-> H1].
      destruct r1 as [files1|e|n|]; simpl in H1; try done.
      * destruct H1 as (extra & -> & He). intros H.
        apply IHn in H as [-> H]. split; [done|].
        by eapply scan_result_trans.
      * intros [= <- <-]. done.
Qed.

(** What a scan adds does not depend on what the list holds. *)
Lemma search_sub_dir_prefix depth recursive path pre files w :
  search_sub_dir depth recursive path (pre ++ files) w
  = (extended pre (fst (search_sub_dir depth recursive path files w)), w).
Proof.
  revert path files.
  induction depth as [|depth IH]; intros path files; [done|].
  simpl. unfold os_scandir, get_fs, raise. unfold_monad.
  destruct (stat (fs w) !! path) as [[| | |]|]; simpl; try done.
  generalize (default [] (listing (fs w) !! path)). intros names.
  revert files.
  induction names as [|name names IHn]; intros files; [done|].
  rewrite !for_each_cons. unfold os_path_isfile, os_path_isdir, get_fs.
  unfold_monad.
  destruct (Str.startswith "." name); simpl; [apply IHn|].
  destruct (isfile (fs w) (posixpath.join path name)); simpl.
  { rewrite <- app_assoc. apply IHn. }
  destruct (isdir (fs w) (posixpath.join path name)); simpl; [|apply IHn].
  destruct recursive; [|apply IHn].
  rewrite IH.
  destruct (search_sub_dir depth true (posixpath.join path name) files w)
    as [r1 w1] eqn:E1.
  apply search_sub_dir_scan in E1 as [-> _].
  destruct r1 as [files1|e|n|]; simpl; [apply IHn|done..].
Qed.

(** What the loop over the entries of a directory leaves in the list. *)
Lemma scan_loop_keeps depth (recursive : bool) path names files w files' w' :
  for_each names (fun entry_name (files : list string) =>
      let entry_path := posixpath.join path entry_name in
      is_file ← os_path_isfile entry_path;
      is_dir ← os_path_isdir entry_path;
      if negb (Str.startswith "." entry_name) && is_file
      then mret (files ++ [entry_path])
      else if negb (Str.startswith "." entry_name) && is_dir
      then (if recursive
            then search_sub_dir depth recursive entry_path files
            else mret files)
      else mret files) files w = (Returned files', w') ->
  (∀ file, file ∈ files -> file ∈ files')
  ∧ (∀ name, name ∈ names -> Str.startswith "." name = false ->
       isfile (fs w) (posixpath.join path name) = true ->
       posixpath.join path name ∈ files')
  ∧ (recursive = true ->
     ∀ name, name ∈ names -> Str.startswith "." name = false ->
       isdir (fs w) (posixpath.join path name) = true ->
       ∃ acc acc',
         search_sub_dir depth true (posixpath.join path name) acc w
         = (Returned acc', w)
         ∧ ∀ file, file ∈ acc' -> file ∈ files').
Proof.
  revert files. induction names as [|name names IHn]; intros files.
  - simpl. intros [= <- <-]. split; [done|].
    split; [by intros ? ?%not_elem_of_nil|]. by intros _ ? ?%not_elem_of_nil.
  - rewrite for_each_cons. unfold os_path_isfile, os_path_isdir, get_fs.
    unfold_monad.
    destruct (Str.startswith "." name) eqn:Eh; simpl.
    { intros H. apply IHn in H as (H1 & H2 & H3). split; [done|]. split.
      - intros name' [->|Hin]%elem_of_cons Hh Hf; [congruence|by apply H2].
      - intros Hr name' [->|Hin]%elem_of_cons Hh Hd; [congruence|by apply H3]. }
    destruct (isfile (fs w) (posixpath.join path name)) eqn:Ef; simpl.
    { intros H. apply IHn in H as (H1 & H2 & H3). split; [|split].
      - intros file Hin. apply H1, elem_of_app. by left.
      - intros name' [->|Hin]%elem_of_cons Hh Hf; [|by apply H2].
        apply H1, elem_of_app. right. apply list_elem_of_here.
      - intros Hr name' [->|Hin]%elem_of_cons Hh Hd; [|by apply H3].
        unfold isfile, isdir in Ef, Hd.
        apply bool_decide_eq_true in Ef, Hd. congruence. }
    destruct (isdir (fs w) (posixpath.join path name)) eqn:Ed; simpl.
    2: { intros H. apply IHn in H as (H1 & H2 & H3). split; [done|]. split.
         - intros name' [->|Hin]%elem_of_cons Hh Hf; [congruence|by apply H2].
         - intros Hr name' [->|Hin]%elem_of_cons Hh Hd;
             [congruence|by apply H3]. }
    destruct recursive.
    2: { intros H. apply IHn in H as (H1 & H2 & H3). split; [done|]. split.
         - intros name' [->|Hin]%elem_of_cons Hh Hf; [congruence|by apply H2].
         - done. }
    destruct (search_sub_dir depth true (posixpath.join path name) files w)
      as [r1 w1] eqn:E1.
    pose proof (search_sub_dir_scan _ _ _ _ _ _ _ E1) as [-> Hs].
    destruct r1 as [files1|e|n|]; try done.
    destruct Hs as (extra & -> & _).
    intros H. apply IHn in H as (H1 & H2 & H3). split; [|split].
    + intros file Hin. apply H1, elem_of_app. by left.
    + intros name' [->|Hin]%elem_of_cons Hh Hf; [congruence|by apply H2].
    + intros _ name' [->|Hin]%elem_of_cons Hh Hd; [|by apply H3].
      exists files, (files ++ extra). split; [done|]. done.
Qed.

Lemma visible_files_elem f path file :
  file ∈ visible_files f path ->
  ∃ name, name ∈ scandir_names f path ∧ Str.startswith "." name = false
          ∧ file = posixpath.join path name ∧ isfile f file = true.
Proof.
  unfold visible_files. intros Hin.
  apply list_elem_of_In, filter_In in Hin as [Hin Hf].
  apply in_map_iff in Hin as (name & <- & Hin).
  apply filter_In in Hin as [Hin Hh]. exists name.
  split; [by apply list_elem_of_In|]. split; [|done].
  by apply negb_true_iff.
Qed.

Lemma search_sub_dir_loop depth (recursive : bool) path files w files' w' :
  search_sub_dir (S depth) recursive path files w = (Returned files', w') ->
  for_each (scandir_names (fs w) path) (fun entry_name (files : list string) =>
      let entry_path := posixpath.join path entry_name in
      is_file ← os_path_isfile entry_path;
      is_dir ← os_path_isdir entry_path;
      if negb (Str.startswith "." entry_name) && is_file
      then mret (files ++ [entry_path])
      else if negb (Str.startswith "." entry_name) && is_dir
      then (if recursive
            then search_sub_dir depth recursive entry_path files
            else mret files)
      else mret files) files w = (Returned files', w').
Proof.
  simpl. unfold os_scandir, get_fs, raise, scandir_names. unfold_monad.
  destruct (stat (fs w) !! path) as [[| | |]|]; done.
Qed.

(** Every scan that returns has the visible files of the directory. *)
Lemma search_sub_dir_visible depth recursive path files w files' w' :
  search_sub_dir depth recursive path files w = (Returned files', w') ->
  ∀ file, file ∈ visible_files (fs w) path -> file ∈ files'.
Proof.
  destruct depth as [|depth]; [done|].
  intros H%search_sub_dir_loop. apply scan_loop_keeps in H as (_ & H2 & _).
  intros file (name & Hin & Hh & -> & Hf)%visible_files_elem. by apply H2.
Qed.

(** X6: a scan only appends, and what it appends does not depend on
    the list it is given: on [files] it gives [files] followed by what
    the same scan gives on the empty list, it raises when that one
    raises, and it leaves the world as it is. *)
Theorem search_sub_dir_appends depth recursive path files w :
  search_sub_dir depth recursive path files w
  = (extended files (fst (search_sub_dir depth recursive path [] w)), w).
Proof.
  rewrite <- (app_nil_r files) at 1. apply search_sub_dir_prefix.
Qed.

(** X7: with either flag, the paths a scan collects are regular
    files, and a scan never ends the process: it returns or it
    raises. *)
Theorem search_sub_dir_outcome depth recursive path w :
  match fst (search_sub_dir depth recursive path [] w) with
  | Returned files => Forall (fun file => isfile (fs w) file = true) files
  | Raised _ => True
  | Exited _ | Diverged => False
  end.
Proof.
  destruct (search_sub_dir depth recursive path [] w) as [r w'] eqn:E.
  pose proof (search_sub_dir_scan _ _ _ _ _ _ _ E) as [-> H]. simpl.
  destruct r as [files|e|n|]; simpl in H; try done.
  by destruct H as (extra & -> & He).
Qed.

(** X8: with [recursive=True] a scan that returns has kept what the
    list held, has the visible files of the directory, and has the
    visible files of each of its sub-directories whose name does not
    begin with a dot. *)
Theorem search_sub_dir_descends depth path files w files' w' :
  search_sub_dir depth true path files w = (Returned files', w') ->
  (∀ file, file ∈ files ∨ file ∈ visible_files (fs w) path -> file ∈ files')
  ∧ (∀ name file,
       name ∈ scandir_names (fs w) path ->
       Str.startswith "." name = false ->
       isdir (fs w) (posixpath.join path name) = true ->
       file ∈ visible_files (fs w) (posixpath.join path name) ->
       file ∈ files').
Proof.
  intros H. split.
  - intros file [Hin|Hin]; [|by eapply search_sub_dir_visible].
    apply search_sub_dir_scan in H as [_ (extra & -> & _)].
    apply elem_of_app. by left.
  - destruct depth as [|depth]; [done|].
    apply (search_sub_dir_loop depth true) in H.
    apply (scan_loop_keeps depth true) in H as (_ & _ & H3).
    intros name file Hin Hh Hd Hfile.
    destruct (H3 eq_refl name Hin Hh Hd) as (acc & acc' & E & Hsub).
    apply Hsub. by eapply search_sub_dir_visible.
Qed.

Lemma search_sub_dir_descends_witness :
  let files' := ["/D/a.zip"; "/D/sub/c.rar"; "/D/b.7z"; "/D/a"; "/D/a(1)";
                 "/D/7z"] in
  search_sub_dir recursion_limit true "/D" [] Demo.start
    = (Returned files', Demo.start)
  ∧ (∀ file, file ∈ [] ∨ file ∈ visible_files (fs Demo.start) "/D" ->
             file ∈ files')
  ∧ (∀ name file,
       name ∈ scandir_names (fs Demo.start) "/D" ->
       Str.startswith "." name = false ->
       isdir (fs Demo.start) (posixpath.join "/D" name) = true ->
       file ∈ visible_files (fs Demo.start) (posixpath.join "/D" name) ->
       file ∈ files').
Proof.
  intros files'.
  assert (search_sub_dir recursion_limit true "/D" [] Demo.start
          = (Returned files', Demo.start)) as H by (vm_compute; reflexivity).
  split; [exact H|].
  exact (search_sub_dir_descends recursion_limit "/D" [] Demo.start files'
           Demo.start H).
Defined.

Section ExpansionMore.

Variable abspath : string -> string.

Lemma get_file_list_loop_scan recursive path_list files w r w' :
  get_file_list_loop abspath recursive path_list files w = (r, w') ->
  w' = w ∧ loop_result (fs w) files r.
Proof.
  revert files.
  induction path_list as [|path path_list IH]; intros files.
  - simpl. intros [= <- <-]. split; [done|]. exists []. by rewrite app_nil_r.
  - cbn [get_file_list_loop]. unfold os_path_isfile, os_path_isdir, get_fs.
    unfold_monad.
    destruct (isfile (fs w) (abspath path)) eqn:Ef.
    { intros H. apply IH in H as [-> H]. split; [done|].
      destruct r as [[files'|]|e|n|]; cbn [loop_result] in *; try done.
      destruct H as (extra & -> & He). exists (abspath path :: extra).
      split; [by rewrite <- app_assoc|]. by constructor. }
    destruct (isdir (fs w) (abspath path)) eqn:Ed.
    2: { intros [= <- <-]. done. }
    destruct (search_sub_dir recursion_limit recursive (abspath path) files w)
      as [r1 w1] eqn:E1.
    pose proof (search_sub_dir_scan _ _ _ _ _ _ _ E1) as [-> H1].
    destruct r1 as [files1|e|n|]; simpl in H1; try done.
    + destruct H1 as (extra & -> & He). intros H.
      apply IH in H as [-> H]. split; [done|].
      destruct r as [[files'|]|e|n|]; cbn [loop_result] in *; try done.
      destruct H as (extra' & -> & He'). exists (extra ++ extra').
      split; [by rewrite <- app_assoc|]. by apply Forall_app.
    + by intros [= <- <-].
Qed.

Lemma get_file_list_loop_prefix recursive path_list pre files w :
  get_file_list_loop abspath recursive path_list (pre ++ files) w
  = (extended_loop pre
       (fst (get_file_list_loop abspath recursive path_list files w)), w).
Proof.
  revert files.
  induction path_list as [|path path_list IH]; intros files; [done|].
  cbn [get_file_list_loop]. unfold os_path_isfile, os_path_isdir, get_fs.
  unfold_monad.
  destruct (isfile (fs w) (abspath path)).
  { rewrite <- app_assoc. apply IH. }
  destruct (isdir (fs w) (abspath path)); [|done].
  rewrite search_sub_dir_prefix.
  destruct (search_sub_dir recursion_limit recursive (abspath path) files w)
    as [r1 w1] eqn:E1.
  apply search_sub_dir_scan in E1 as [-> _].
  destruct r1 as [files1|e|n|]; simpl; [apply IH|done..].
Qed.

Lemma get_file_list_loop_app recursive l1 l2 files w files1 :
  get_file_list_loop abspath recursive l1 files w = (Returned (Some files1), w) ->
  get_file_list_loop abspath recursive (l1 ++ l2) files w
  = get_file_list_loop abspath recursive l2 files1 w.
Proof.
  revert files.
  induction l1 as [|path l1 IH]; intros files.
  - simpl. by intros [= ->].
  - cbn [get_file_list_loop app]. unfold os_path_isfile, os_path_isdir, get_fs.
    unfold_monad.
    destruct (isfile (fs w) (abspath path)); [apply IH|].
    destruct (isdir (fs w) (abspath path)); [|done].
    destruct (search_sub_dir recursion_limit recursive (abspath path) files w)
      as [r1 w1] eqn:E1.
    apply search_sub_dir_scan in E1 as [-> _].
    destruct r1 as [files'|e|n|]; [apply IH|done..].
Qed.

Lemma get_file_list_loop_of recursive path_list w files w' :
  get_file_list abspath path_list recursive w = (Returned files, w') ->
  get_file_list_loop abspath recursive path_list [] w = (Returned (Some files), w)
  ∧ w' = w ∧ files ≠ [].
Proof.
  unfold get_file_list, logger_error, sys_exit. unfold_monad.
  destruct (get_file_list_loop abspath recursive path_list [] w)
    as [r1 w1] eqn:E1.
  apply get_file_list_loop_scan in E1 as [-> _].
  destruct r1 as [[files1|]|e|n|]; try done.
  destruct files1 as [|file files1]; simpl; [done|].
  by intros [= <- <-].
Qed.

(** X9: with either flag, [get_file_list] changes nothing but the log.
    When it returns, nothing at all has changed, the list is not empty
    and every path in it is a regular file; when it ends the process,
    the status is -2; when it raises, nothing has changed. *)
Theorem get_file_list_outcome path_list recursive w :
  let r := fst (get_file_list abspath path_list recursive w) in
  let w' := snd (get_file_list abspath path_list recursive w) in
  fs w' = fs w ∧ children w' = children w ∧
  match r with
  | Returned files =>
      w' = w ∧ files ≠ [] ∧ Forall (fun file => isfile (fs w) file = true) files
  | Exited n => n = -2
  | Raised _ => w' = w
  | Diverged => False
  end.
Proof.
  unfold get_file_list, logger_error, sys_exit. unfold_monad.
  destruct (get_file_list_loop abspath recursive path_list [] w)
    as [r1 w1] eqn:E1.
  apply get_file_list_loop_scan in E1 as [-> H].
  destruct r1 as [[files1|]|e|n|]; simpl in *; try done.
  destruct H as (extra & -> & He).
  destruct extra as [|file files1]; simpl; [done|].
  split; [done|]. split; [done|]. done.
Qed.

(** X10: what [get_file_list] logs with the default flag: nothing when
    it returns; one [ERROR] line otherwise, which is
    ["Invalid input file path."] when some input is neither a file nor
    a directory, also when the other inputs hold files, and
    ["File does not exist."] when all inputs exist and expand to no
    file. *)
Theorem get_file_list_error_log path_list w :
  let w' := snd (get_file_list abspath path_list false w) in
  fs w' = fs w ∧ children w' = children w ∧
  log w' = log w ++
    (if forallb (valid_input abspath (fs w)) path_list
     then match expand abspath (fs w) path_list with
          | [] => [ {| levelno := logging.ERROR;
                       message := "File does not exist." |} ]
          | _ => []
          end
     else [ {| levelno := logging.ERROR;
               message := "Invalid input file path." |} ]).
Proof.
  unfold get_file_list, logger_error, sys_exit. unfold_monad.
  rewrite get_file_list_loop_flat.
  destruct (forallb _ _); simpl; [|done].
  destruct (expand abspath (fs w) path_list); simpl; [done|].
  by rewrite app_nil_r.
Qed.

(** X11: with either flag, [get_file_list] goes through its inputs one
    after the other: when it returns for [l1] and for [l2], it returns
    for [l1 ++ l2] the two lists one after the other. *)
Theorem get_file_list_app recursive l1 l2 w files1 w1 files2 w2 :
  get_file_list abspath l1 recursive w = (Returned files1, w1) ->
  get_file_list abspath l2 recursive w = (Returned files2, w2) ->
  get_file_list abspath (l1 ++ l2) recursive w = (Returned (files1 ++ files2), w).
Proof.
  intros (H1 & _ & Hne)%get_file_list_loop_of (H2 & _ & _)%get_file_list_loop_of.
  unfold get_file_list. unfold_monad.
  rewrite (get_file_list_loop_app _ _ _ _ _ _ H1).
  rewrite <- (app_nil_r files1) at 1.
  rewrite get_file_list_loop_prefix, H2. simpl.
  destruct files1 as [|file files1]; done.
Qed.

End ExpansionMore.

Lemma get_file_list_app_witness :
  get_file_list Demo.abspath ["b.7z"] true Demo.start
    = (Returned ["/D/b.7z"], Demo.start)
  ∧ get_file_list Demo.abspath ["/D"] true Demo.start
    = (Returned ["/D/a.zip"; "/D/sub/c.rar"; "/D/b.7z"; "/D/a"; "/D/a(1)";
                 "/D/7z"], Demo.start)
  ∧ get_file_list Demo.abspath (["b.7z"] ++ ["/D"]) true Demo.start
    = (Returned (["/D/b.7z"] ++
                 ["/D/a.zip"; "/D/sub/c.rar"; "/D/b.7z"; "/D/a"; "/D/a(1)";
                  "/D/7z"]), Demo.start).
Proof.
  assert (get_file_list Demo.abspath ["b.7z"] true Demo.start
          = (Returned ["/D/b.7z"], Demo.start)) as H1
    by (vm_compute; reflexivity).
  assert (get_file_list Demo.abspath ["/D"] true Demo.start
          = (Returned ["/D/a.zip"; "/D/sub/c.rar"; "/D/b.7z"; "/D/a";
                       "/D/a(1)"; "/D/7z"], Demo.start)) as H2
    by (vm_compute; reflexivity).
  repeat (split; [assumption|]).
  exact (get_file_list_app Demo.abspath true ["b.7z"] ["/D"] Demo.start
           _ _ _ _ H1 H2).
Defined.

(** ** The whole command line *)

(** X12: the command line [seven_zip] builds holds nothing but the
    executable, [x -y -aoa], the output switch [-o] with [str(out_dir)],
    the password switch if any, the code page switch if any, and the
    path of the archive, in this order. *)
Theorem seven_zip_cmd_frame exe_path file_path out_dir password code_page :
  let cmd := seven_zip_cmd exe_path file_path out_dir password code_page in
  cmd = [exe_path; "x"; "-y"; "-aoa"; "-o" +:+ str_of out_dir]
        ++ password_flags cmd ++ codepage_flags cmd ++ [file_path].
Proof.
  intros cmd. subst cmd. rewrite seven_zip_cmd_shape.
  unfold password_flags, codepage_flags, options.
  repeat case_bool_decide; simpl; rewrite ?startswith_empty; reflexivity.
Qed.

(** ** [check_argument], the batch and [main] *)

Lemma getSeverity_alarm rc :
  (logging.INFO <? getSeverity rc) = negb (rc =? 0).
Proof.
  unfold getSeverity. destruct (rc =? 0); [done|].
  by destruct ((rc =? 1) || (rc =? 255)).
Qed.

Lemma logger_log_snd level msg w :
  (logging.INFO <=? level) = true ->
  snd (logger_log level msg w) = logged level msg w.
Proof. intros H. by rewrite logger_log_emits. Qed.

Lemma rfind_app_char c (a b : string) :
  Str.mem c b = false ->
  Str.rfind c (a +:+ String c b) = Z.of_nat (String.length a).
Proof.
  intros H. unfold Str.rfind. rewrite rfind_from_app. simpl.
  rewrite Ascii.eqb_refl. by apply rfind_from_absent.
Qed.

Lemma take_app_length (a b : string) :
  Str.take (String.length a) (a +:+ b) = a.
Proof.
  induction a as [|x a IH]; simpl; [by destruct b|]. by rewrite IH.
Qed.

Lemma drop_app_length (a b : string) :
  Str.drop (String.length a) (a +:+ b) = b.
Proof. induction a as [|x a IH]; simpl; [by destruct b|]. done. Qed.

Lemma drop_app_char (a b : string) c :
  Str.drop (S (String.length a)) (a +:+ String c b) = b.
Proof. induction a as [|x a IH]; simpl; [by destruct b|]. done. Qed.

(** The base name of a path that ends with a name without separator. *)
Lemma basename_join (dir rest : string) :
  Str.mem posixpath.sep rest = false ->
  posixpath.basename (dir +:+ "/" +:+ rest) = rest.
Proof.
  intros H. unfold posixpath.basename.
  change (dir +:+ "/" +:+ rest) with (dir +:+ String posixpath.sep rest).
  rewrite (rfind_app_char _ _ _ H).
  replace (Z.to_nat (Z.of_nat (String.length dir) + 1))
    with (S (String.length dir)) by lia.
  apply drop_app_char.
Qed.

Lemma has_name_before_dot_app (name rest : string) :
  Str.truthy name = true ->
  Str.startswith "." name = false ->
  posixpath.has_name_before_dot (String.length name) (name +:+ rest) = true.
Proof.
  destruct name as [|x name]; [done|]. intros _ H. simpl in *.
  destruct (Ascii.eqb_spec x posixpath.extsep) as [->|]; [|done].
  by destruct name.
Qed.

(** [splitext] cuts a plain name from its one extension. *)
Lemma splitext_plain (name ext : string) :
  Str.truthy name = true ->
  Str.startswith "." name = false ->
  Str.mem posixpath.sep name = false ->
  Str.mem posixpath.extsep name = false ->
  Str.mem posixpath.sep ext = false ->
  Str.mem posixpath.extsep ext = false ->
  posixpath.splitext (name +:+ "." +:+ ext) = (name, "." +:+ ext).
Proof.
  intros Ht Hh Hs Hd Hse Hde. unfold posixpath.splitext.
  assert (Str.rfind posixpath.sep (name +:+ "." +:+ ext) = -1) as ->.
  { apply rfind_from_absent. rewrite mem_app, Hs. exact Hse. }
  change (name +:+ "." +:+ ext) with (name +:+ String posixpath.extsep ext).
  rewrite (rfind_app_char _ _ _ Hde).
  replace (Z.of_nat (String.length name) - (-1 + 1))
    with (Z.of_nat (String.length name)) by lia.
  rewrite Nat2Z.id. change (Z.to_nat (-1 + 1)) with O.
  change (Str.drop 0 ?s) with s.
  rewrite has_name_before_dot_app by done.
  rewrite take_app_length, drop_app_length.
  replace (-1 <? Z.of_nat (String.length name)) with true; [done|].
  symmetry. apply Z.ltb_lt. lia.
Qed.

Section MainMore.

Variable abspath : string -> string.
Variable script_file : string.
Variable spawn : list string -> filesystem -> started.

(** X13: the name test of [check_argument] looks at the base name of
    the executable without its extension: one of the five names with
    any one extension, in any directory, passes it, and then
    [check_argument] returns the arguments as they are when the path is
    a file, and otherwise logs one [ERROR] line and ends the process
    with status -2. *)
Theorem check_argument_any_extension argv dir name ext w :
  name ∈ main_executables ->
  Str.mem posixpath.sep ext = false ->
  Str.mem posixpath.extsep ext = false ->
  exe argv = dir +:+ "/" +:+ name +:+ "." +:+ ext ->
  check_argument abspath argv w =
    if isfile (fs w) (abspath (exe argv))
    then (Returned argv, w)
    else (Exited (-2),
          logged logging.ERROR
            ("The 7-Zip executable file (" +:+ exe argv
             +:+ ") does not exist.") w).
Proof.
  intros Hn Hs Hd He.
  assert (executable_name argv = name) as Hname.
  { unfold executable_name. rewrite He.
    rewrite basename_join.
    2: { rewrite mem_app. change (Str.mem posixpath.sep ("." +:+ ext))
           with (Str.mem posixpath.sep ext). rewrite Hs.
         unfold main_executables in Hn. rewrite !elem_of_cons in Hn.
         destruct Hn as [->|[->|[->|[->|[->|Hn]]]]]; try done.
         by apply not_elem_of_nil in Hn. }
    rewrite splitext_plain; try done;
      unfold main_executables in Hn; rewrite !elem_of_cons in Hn;
      destruct Hn as [->|[->|[->|[->|[->|Hn]]]]]; try done;
      by apply not_elem_of_nil in Hn. }
  destruct (isfile (fs w) (abspath (exe argv))) eqn:Hf.
  - apply check_argument_Returned; [done|]. by rewrite Hname.
  - unfold check_argument, os_path_isfile, get_fs, logger_error, sys_exit.
    unfold_monad. by rewrite Hf.
Qed.

Lemma check_argument_cases argv w :
  check_argument abspath argv w = (Returned argv, w)
  ∨ ∃ msg, check_argument abspath argv w
           = (Exited (-2), logged logging.ERROR msg w).
Proof.
  unfold check_argument, os_path_isfile, get_fs, logger_error, sys_exit.
  unfold_monad.
  destruct (isfile (fs w) (abspath (exe argv))); simpl; [|right; eauto].
  destruct (posixpath.splitext _) as [name ext].
  case_bool_decide; simpl; [by left|right; eauto].
Qed.

Lemma get_file_list_cases path_list w :
  (∃ files, get_file_list abspath path_list false w = (Returned files, w))
  ∨ ∃ msg, get_file_list abspath path_list false w
           = (Exited (-2), logged logging.ERROR msg w).
Proof.
  unfold get_file_list, logger_error, sys_exit. unfold_monad.
  rewrite get_file_list_loop_flat.
  destruct (forallb _ _); simpl; [|right; eauto].
  destruct (expand abspath (fs w) path_list); simpl; [right|left]; eauto.
Qed.

(** One round of the loop that returns, step by step: [f2] is the file
    system the child is started on. *)
Lemma main_step_trace args exe_path files work_dir i statistics w
    statistics' w' :
  main_step abspath spawn args exe_path files work_dir i statistics w
    = (Returned statistics', w') ->
  ∃ file total separate_dir rtn description f2,
    files !! i = Some file ∧
    statistics !! "total" = Some total ∧
    return_code_table !! returncode rtn = Some description ∧
    proc_args rtn = seven_zip_cmd exe_path file separate_dir (password args)
                      (codepage args) ∧
    children w' = children w ++ [rtn] ∧
    log w' = log w ++ round_lines i total file separate_dir rtn description ∧
    (∀ q k, stat (fs w) !! q = Some k -> stat f2 !! q = Some k) ∧
    match separate_dir with
    | Some d => isdir f2 d = true
    | None => True
    end ∧
    spawn (proc_args rtn) f2
    = Ended (returncode rtn) (stdout rtn) (stderr rtn) (fs w').
Proof.
  unfold main_step. intros H.
  apply bind_Returned in H as (total & w0 & Ht & H).
  unfold getitem in Ht. destruct (statistics !! "total") as [t|] eqn:Et; [|done].
  injection Ht as -> ->.
  unfold logger_info, logger_debug in H. rewrite bind_logger_log in H.
  rewrite logger_log_snd in H by done.
  apply bind_Returned in H as (file & w1 & Hfile & H).
  unfold list_getitem in Hfile.
  destruct (files !! i) as [file0|] eqn:Ef; [|done].
  injection Hfile as -> <-.
  destruct (posixpath.splitext _) as [name ext].
  apply bind_Returned in H as (separate_dir & w2 & Hd & H).
  pose proof (create_dir_Returned _ _ _ _ _ Hd) as Hdir.
  apply create_dir_grows in Hd as (Hl2 & Hc2 & Hg2).
  unfold logged in Hl2, Hc2, Hg2. cbn [fs log children] in Hl2, Hc2, Hg2.
  apply bind_Returned in H as (rtn & w3 & Hr & H).
  unfold seven_zip, subprocess_run in Hr.
  destruct (spawn _ (fs w2)) as [rc out err f'|e|] eqn:Es; [|done..].
  injection Hr as <- <-.
  apply bind_Returned in H as (statistics1 & w4 & Hs & H).
  match type of Hs with
  | _ ?w3 = _ => assert (w4 = w3) as ->
  end.
  { destruct (negb _).
    - apply bind_Returned in Hs as (f0 & w5 & Hg & Hs).
      unfold getitem in Hg. destruct (statistics !! "failure"); [|done].
      injection Hg as -> <-. by injection Hs as _ <-.
    - by injection Hs as _ <-. }
  rewrite !bind_logger_log in H.
  change (logger_log logging.DEBUG) with (fun (msg : string) (w : world) =>
    (Returned tt, w)) in H. cbv beta in H. cbn [snd] in H.
  rewrite !logger_log_snd in H by done. unfold logged in H.
  cbn [fs log children proc_args returncode] in H.
  apply bind_Returned in H as (description & w5 & Hdesc & H).
  unfold getitem in Hdesc.
  destruct (return_code_table !! rc) as [desc|] eqn:Ed; [|done].
  injection Hdesc as -> <-.
  rewrite bind_logger_log in H.
  rewrite logger_log_snd in H by apply getSeverity_ge_INFO.
  injection H as _ <-. unfold logged. cbn [fs log children].
  exists file, total, separate_dir,
    {| proc_args := seven_zip_cmd exe_path file separate_dir (password args)
                      (codepage args);
       returncode := rc; stdout := out; stderr := err |},
    description, (fs w2).
  cbn [proc_args returncode stdout stderr].
  split; [done|]. split; [done|]. split; [done|]. split; [done|].
  split; [by rewrite Hc2|].
  split; [rewrite Hl2; unfold round_lines; by rewrite <- !app_assoc|].
  split. { intros q k Hq. destruct (Hg2 q) as [->|[E1 _]]; congruence. }
  split; [|done]. destruct separate_dir as [d|]; [|done]. by destruct Hdir as (_ & ? & _).
Qed.


Lemma main_loop_trace args exe_path files work_dir n i statistics w
    statistics' w' :
  for_each (seq i n) (main_step abspath spawn args exe_path files work_dir)
    statistics w = (Returned statistics', w') ->
  ∃ procs lines,
    children w' = children w ++ procs ∧
    log w' = log w ++ lines ∧
    Forall2 (extracts exe_path args) procs (take n (drop i files)) ∧
    length procs = n ∧
    length lines = (4 * n)%nat ∧
    length (alarms lines) = failures procs.
Proof.
  revert i statistics w.
  induction n as [|n IH]; intros i statistics w H.
  - injection H as _ <-. exists [], []. rewrite !app_nil_r.
    repeat split; constructor.
  - cbn [seq] in H. rewrite for_each_cons in H.
    apply bind_Returned in H as (statistics1 & w1 & H1 & H).
    apply main_step_trace in H1
      as (file & total & d & rtn & desc & f2 & Hfile & _ & _ & Hargs & Hc & Hl
          & _).
    apply IH in H as (procs & lines & Hc' & Hl' & Hall & Hn & Hlen & Hal).
    exists (rtn :: procs), (round_lines i total file d rtn desc ++ lines).
    split; [by rewrite Hc', Hc, <- app_assoc|].
    split; [by rewrite Hl', Hl, <- app_assoc|].
    split. { rewrite (drop_S _ _ _ Hfile). cbn [take]. constructor; [|done].
             by exists d. }
    split; [simpl; by rewrite Hn|].
    split. { rewrite length_app, Hlen. simpl. lia. }
    unfold alarms, failures in *. rewrite List.filter_app, length_app, Hal.
    simpl. rewrite getSeverity_alarm. by destruct (negb _).
Qed.

Lemma main_statistics_trace args exe_path files work_dir w statistics w' :
  main_statistics abspath script_file spawn args exe_path files work_dir w
    = (Returned statistics, w') ->
  ∃ procs lines,
    children w' = children w ++ procs ∧
    log w' = log w
             ++ {| levelno := logging.INFO;
                   message := tag "START" +:+ script_file |} :: lines ∧
    Forall2 (extracts exe_path args) procs files ∧
    length lines = (4 * length files)%nat ∧
    length (alarms lines) = failures procs.
Proof.
  unfold main_statistics. unfold logger_info. rewrite bind_logger_log.
  rewrite logger_log_snd by done.
  set (statistics0 := <["total" := Z.of_nat (length files)]> _).
  assert (statistics0 !! "total" = Some (Z.of_nat (length files))) as Ht
    by apply lookup_insert_eq.
  rewrite (bind_step _ _ _ _ _ (getitem_Some _ _ _ _ Ht)).
  rewrite Nat2Z.id. intros H.
  apply main_loop_trace in H as (procs & lines & Hc & Hl & Hall & _ & Hlen & Hal).
  cbn [children log logged] in Hc, Hl. rewrite drop_0, firstn_all in Hall.
  exists procs, lines. rewrite Hl, <- app_assoc. done.
Qed.

(** X14: when the loop of [main] has come to its end, the children it
    has run are, file by file and in the order of [files], the commands
    [seven_zip] builds for the executable, that file, an output
    directory, and the password and the code page of the arguments. *)
Theorem main_statistics_commands args exe_path files work_dir w statistics w' :
  main_statistics abspath script_file spawn args exe_path files work_dir w
    = (Returned statistics, w') ->
  ∃ procs,
    children w' = children w ++ procs ∧
    Forall2 (extracts exe_path args) procs files.
Proof.
  intros H. apply main_statistics_trace in H as (procs & _ & Hc & _ & Hall & _).
  by exists procs.
Qed.


Lemma bind_Diverged {A B} (m : M A) (f : A -> M B) w w' :
  (m ≫= f) w = (Diverged, w') ->
  m w = (Diverged, w') ∨ ∃ a w1, m w = (Returned a, w1) ∧ f a w1 = (Diverged, w').
Proof.
  unfold_monad. destruct (m w) as [[a|e|n|] w1]; try done; [eauto|].
  intros [= <-]. by left.
Qed.

(** A round of the loop fails to end only when its child does. *)
Lemma main_step_Diverged args exe_path files work_dir i statistics w w' :
  main_step abspath spawn args exe_path files work_dir i statistics w
    = (Diverged, w') ->
  ∃ cmd f, spawn cmd f = Hung.
Proof.
  unfold main_step. intros H.
  apply bind_Diverged in H as [H|(total & w0 & Ht & H)].
  { unfold getitem in H. by destruct (statistics !! "total"). }
  unfold getitem in Ht. destruct (statistics !! "total"); [|done].
  injection Ht as -> ->.
  unfold logger_info, logger_debug in H. rewrite bind_logger_log in H.
  apply bind_Diverged in H as [H|(file & w1 & Hfile & H)].
  { unfold list_getitem in H. by destruct (files !! i). }
  destruct (posixpath.splitext _) as [name ext].
  apply bind_Diverged in H as [H|(separate_dir & w2 & Hd & H)].
  { match type of H with
    | create_dir _ ?d ?w0 = _ =>
        pose proof (create_dir_result abspath d w0) as Hres
    end.
    by rewrite H in Hres. }
  apply bind_Diverged in H as [H|(rtn & w3 & Hr & H)].
  { unfold seven_zip, subprocess_run in H.
    match type of H with
    | context [spawn ?cmd ?f] => destruct (spawn cmd f) eqn:Es; try done
    end.
    eauto. }
  apply bind_Diverged in H as [H|(statistics1 & w4 & Hs & H)].
  { destruct (negb _); [|done].
    apply bind_Diverged in H as [H|(f0 & w5 & Hg & H)]; [|done].
    unfold getitem in H. by destruct (statistics !! "failure"). }
  rewrite !bind_logger_log in H.
  apply bind_Diverged in H as [H|(description & w5 & Hdesc & H)].
  { unfold getitem in H. by destruct (return_code_table !! returncode rtn). }
  by rewrite bind_logger_log in H.
Qed.

Lemma main_loop_Diverged args exe_path files work_dir l statistics w w' :
  for_each l (main_step abspath spawn args exe_path files work_dir)
    statistics w = (Diverged, w') ->
  ∃ cmd f, spawn cmd f = Hung.
Proof.
  revert statistics w. induction l as [|i l IH]; intros statistics w; [done|].
  rewrite for_each_cons.
  intros [H|(statistics1 & w1 & _ & H)]%bind_Diverged.
  - by eapply main_step_Diverged.
  - by eapply IH.
Qed.

(** How [main] can end: it returns 0; it ends the process with status
    -2 after one [ERROR] line and nothing else; it raises what a
    directory creation or the start of a child raises, or [KeyError]
    right after a child that ended with an unlisted exit code; or it
    waits for a child that never ends. *)
Lemma main_outcome argv w r w' :
  main abspath script_file spawn argv w = (r, w') ->
  match r with
  | Returned v => v = 0
  | Exited n => n = -2 ∧ ∃ msg, w' = logged logging.ERROR msg w
  | Raised e =>
      creation_error e = true
      ∨ (e = KeyError
         ∧ ∃ procs p, children w' = children w ++ procs ++ [p] ∧ ¬ listed p)
  | Diverged => ∃ cmd f, spawn cmd f = Hung
  end.
Proof.
  unfold main.
  destruct (check_argument_cases argv w) as [E1|[msg E1]].
  2: { unfold mbind, M_bind at 1. rewrite E1. intros [= <- <-]. eauto. }
  rewrite (bind_step _ _ _ _ _ E1).
  destruct (get_file_list_cases (input argv) w) as [[files E2]|[msg E2]].
  2: { unfold mbind, M_bind at 1. rewrite E2. intros [= <- <-]. eauto. }
  rewrite (bind_step _ _ _ _ _ E2).
  pose proof (create_dir_result abspath (output argv) w) as Hres.
  destruct (create_dir abspath (output argv) w) as [rd w3] eqn:E3.
  simpl in Hres. destruct rd as [work_dir|e|n|]; try done.
  2: { unfold mbind, M_bind at 1. rewrite E3. intros [= <- <-]. by left. }
  apply create_dir_grows in E3 as Hg3. destruct Hg3 as (_ & Hc3 & _).
  rewrite (bind_step _ _ _ _ _ E3).
  destruct (main_statistics abspath script_file spawn argv
              (abspath (exe argv)) files work_dir w3) as [rs w4] eqn:E4.
  destruct (main_statistics_outcome _ _ _ _ _ _ _ _ _ _ E4)
    as (procs & Hc4 & _ & Hb).
  destruct rs as [statistics|e|n|]; simpl in Hb; try done.
  - destruct Hb as (_ & _ & Ht & Hf).
    rewrite (bind_step _ _ _ _ _ E4).
    rewrite (bind_step _ _ _ _ _ (getitem_Some _ _ _ _ Ht)),
      (bind_step _ _ _ _ _ (getitem_Some _ _ _ _ Hf)).
    unfold logger_info. rewrite !bind_logger_log. by intros [= <- <-].
  - unfold mbind, M_bind at 1. rewrite E4. intros [= <- <-].
    destruct (creation_error e); [by left|]. right.
    destruct Hb as (-> & procs0 & p & -> & _ & Hp). split; [done|].
    exists procs0, p. by rewrite Hc4, Hc3.
  - unfold mbind, M_bind at 1. rewrite E4. intros [= <- <-].
    unfold main_statistics, logger_info in E4. rewrite bind_logger_log in E4.
    apply bind_Diverged in E4 as [E4|(total & w5 & _ & E4)].
    + unfold getitem in E4. by rewrite lookup_insert_eq in E4.
    + by eapply main_loop_Diverged.
Qed.

(** X16: when the script ends the process through [sys.exit], nothing
    has happened to the file system and no child has run.  When
    [argparse] ended it, the status is 2 after a usage error and 0 after
    [-h] or [-v], and the logger has nothing; when the command line was
    parsed, the status is -2 and the logger has one [ERROR] line. *)
Theorem script_exit_is_clean c w n w' :
  script abspath script_file spawn c w = (Exited n, w') ->
  fs w' = fs w ∧ children w' = children w ∧
  match c with
  | Parsed _ =>
      n = -2
      ∧ ∃ msg, log w' = log w ++ [ {| levelno := logging.ERROR; message := msg |} ]
  | Usage => n = 2 ∧ log w' = log w
  | Information => n = 0 ∧ log w' = log w
  end.
Proof.
  unfold script. destruct c as [argv| |]; simpl.
  - rewrite (bind_step _ _ _ argv w) by done.
    intros H. apply main_outcome in H as (-> & msg & ->).
    split; [done|]. split; [done|]. split; [done|]. by exists msg.
  - by intros [= <- <-].
  - by intros [= <- <-].
Qed.

(** X17: the look-ups of [main] fail only for an exit code:
    [IndexError] never leaves [main], since [files[i]] stays in range,
    and [KeyError] leaves [main] only right after a child that ended
    with an exit code [return_code_table] has no row for; the keys of
    [statistics] are always there. *)
Theorem main_lookup_errors argv w e w' :
  main abspath script_file spawn argv w = (Raised e, w') ->
  match e with
  | IndexError => False
  | KeyError =>
      ∃ procs p, children w' = children w ++ procs ++ [p] ∧ ¬ listed p
  | _ => True
  end.
Proof.
  intros H. apply main_outcome in H as [H|[-> H]]; [|done].
  by destruct e.
Qed.


(** X19: when [main] returns, it returns 0, it has run one child for
    each file the inputs expand to, and the last two lines of the log
    are the [RESULT] line, with the number of files, the number of
    children that ended with exit code 0 and the number of the others,
    and the [END] line. *)
Theorem main_returns_report argv w v w' :
  main abspath script_file spawn argv w = (Returned v, w') ->
  ∃ procs lines,
    let files := expand abspath (fs w) (input argv) in
    let total := Z.of_nat (length files) in
    let failure := Z.of_nat (failures procs) in
    v = 0 ∧
    children w' = children w ++ procs ∧
    archive_of <$> procs = Some <$> files ∧
    log w' = lines ++
      [ {| levelno := logging.INFO;
           message := tag "RESULT" +:+ "TOTAL:" +:+ fmt_center5 total
                      +:+ ",SUCCESS:" +:+ fmt_center5 (total - failure)
                      +:+ ",FAILURE:" +:+ fmt_center5 failure |};
        {| levelno := logging.INFO; message := tag "END" +:+ script_file |} ].
Proof. apply main_result_line. Qed.

End MainMore.

Lemma check_argument_any_extension_witness :
  let argv := {| codepage := None; input := ["a.zip"]; output := None;
                 password := None; exe := "/opt/7-Zip/7za.exe" |} in
  "7za" ∈ main_executables ∧
  Str.mem posixpath.sep "exe" = false ∧
  Str.mem posixpath.extsep "exe" = false ∧
  exe argv = "/opt/7-Zip" +:+ "/" +:+ "7za" +:+ "." +:+ "exe" ∧
  check_argument Demo.abspath argv Demo.start =
    if isfile (fs Demo.start) (Demo.abspath (exe argv))
    then (Returned argv, Demo.start)
    else (Exited (-2),
          logged logging.ERROR
            ("The 7-Zip executable file (" +:+ exe argv
             +:+ ") does not exist.") Demo.start).
Proof.
  intros argv.
  assert ("7za" ∈ main_executables) as H1
    by (apply list_elem_of_further, list_elem_of_here).
  assert (Str.mem posixpath.sep "exe" = false) as H2 by reflexivity.
  assert (Str.mem posixpath.extsep "exe" = false) as H3 by reflexivity.
  assert (exe argv = "/opt/7-Zip" +:+ "/" +:+ "7za" +:+ "." +:+ "exe") as H4
    by reflexivity.
  repeat (split; [assumption|]).
  exact (check_argument_any_extension Demo.abspath argv "/opt/7-Zip" "7za"
           "exe" Demo.start H1 H2 H3 H4).
Defined.


Lemma main_statistics_commands_witness :
  let files := ["/D/a.zip"; "/D/b.7z"] in
  let run := main_statistics Demo.abspath Demo.script_file
               (Demo.spawn Demo.code_fatal) Demo.argv "/D/7z" files None
               Demo.start in
  let statistics : gmap string Z := <["failure" := 1]> (<["total" := 2]> ∅) in
  run = (Returned statistics, snd run) ∧
  ∃ procs,
    children (snd run) = children Demo.start ++ procs ∧
    Forall2 (extracts "/D/7z" Demo.argv) procs files.
Proof.
  intros files run statistics.
  assert (run = (Returned statistics, snd run)) as H
    by (vm_compute; reflexivity).
  split; [exact H|].
  exact (main_statistics_commands Demo.abspath Demo.script_file
           (Demo.spawn Demo.code_fatal) Demo.argv "/D/7z" files None
           Demo.start statistics (snd run) H).
Defined.


Lemma script_exit_is_clean_witness :
  let no_input := {| codepage := None; input := ["nothing.zip"];
                     output := Some "out"; password := None; exe := "7z" |} in
  let run := script Demo.abspath Demo.script_file (Demo.spawn Demo.code_fatal)
               (Parsed no_input) Demo.start in
  run = (Exited (-2), snd run) ∧
  fs (snd run) = fs Demo.start ∧ children (snd run) = children Demo.start ∧
  -2 = -2 ∧
  ∃ msg, log (snd run)
         = log Demo.start ++ [ {| levelno := logging.ERROR; message := msg |} ].
Proof.
  intros no_input run.
  assert (run = (Exited (-2), snd run)) as H by (vm_compute; reflexivity).
  split; [exact H|].
  exact (script_exit_is_clean Demo.abspath Demo.script_file
           (Demo.spawn Demo.code_fatal) (Parsed no_input) Demo.start (-2)
           (snd run) H).
Defined.

Lemma main_lookup_errors_witness :
  let run := main Demo.abspath Demo.script_file (Demo.spawn Demo.code_killed)
               Demo.argv Demo.start in
  run = (Raised KeyError, snd run) ∧
  ∃ procs p,
    children (snd run) = children Demo.start ++ procs ++ [p] ∧ ¬ listed p.
Proof.
  intros run.
  assert (run = (Raised KeyError, snd run)) as H by (vm_compute; reflexivity).
  split; [exact H|].
  exact (main_lookup_errors Demo.abspath Demo.script_file
           (Demo.spawn Demo.code_killed) Demo.argv Demo.start KeyError
           (snd run) H).
Defined.

Lemma main_returns_report_witness :
  let run := main Demo.abspath Demo.script_file (Demo.spawn Demo.code_fatal)
               Demo.argv Demo.start in
  run = (Returned 0, snd run) ∧
  ∃ procs lines,
    let files := expand Demo.abspath (fs Demo.start) (input Demo.argv) in
    let total := Z.of_nat (length files) in
    let failure := Z.of_nat (failures procs) in
    0 = 0 ∧
    children (snd run) = children Demo.start ++ procs ∧
    archive_of <$> procs = Some <$> files ∧
    log (snd run) = lines ++
      [ {| levelno := logging.INFO;
           message := tag "RESULT" +:+ "TOTAL:" +:+ fmt_center5 total
                      +:+ ",SUCCESS:" +:+ fmt_center5 (total - failure)
                      +:+ ",FAILURE:" +:+ fmt_center5 failure |};
        {| levelno := logging.INFO;
           message := tag "END" +:+ Demo.script_file |} ].
Proof.
  intros run.
  assert (run = (Returned 0, snd run)) as H by (vm_compute; reflexivity).
  split; [exact H|].
  exact (main_returns_report Demo.abspath Demo.script_file
           (Demo.spawn Demo.code_fatal) Demo.argv Demo.start 0 (snd run) H).
Defined.
